(** * scripts/seperateGeoJson.js: shapefile to GeoJSON, classified and partitioned

    A shallow embedding of [_getGeoJson], [_saveGeoJson] and [shapeToGeojson].
    JavaScript values are the primitives a DBF attribute table or a JSON
    configuration file can hold; numbers are IEEE binary64, as in JavaScript.
    The status sink (the [ora] spinner), the shapefile reader, the file
    system and the geodetic transform [gk.toWGS] are outside the script: the
    first is a trace of events, the others are parameters of the run. *)

From Stdlib Require Import Floats.PrimFloat.
From stdpp Require Import gmap strings list.

(** ** JavaScript values *)

Inductive value :=
| VUndefined
| VNull
| VBool (b : bool)
| VNum (x : float)
| VStr (s : string).

(** ToBoolean: [undefined], [null], [false], [0], [-0], [NaN] and the empty
    string are falsy. *)
Definition truthy (v : value) : bool :=
  match v with
  | VUndefined | VNull => false
  | VBool b => b
  | VNum x => negb (PrimFloat.eqb x 0%float || is_nan x)
  | VStr s => negb (String.eqb s "")
  end.

(** [v === w] *)
Definition strict_eq (v w : value) : bool :=
  match v, w with
  | VUndefined, VUndefined => true
  | VNull, VNull => true
  | VBool a, VBool b => Bool.eqb a b
  | VNum x, VNum y => PrimFloat.eqb x y
  | VStr s, VStr t => String.eqb s t
  | _, _ => false
  end.

(** SameValueZero, the comparison of [Array.prototype.includes]: as [===]
    but [NaN] equals [NaN]. *)
Definition same_value_zero (v w : value) : bool :=
  match v, w with
  | VNum x, VNum y => PrimFloat.eqb x y || (is_nan x && is_nan y)
  | _, _ => strict_eq v w
  end.

(** [a || b] *)
Definition js_or (a b : value) : value := if truthy a then a else b.

(** [array.includes(v)] *)
Definition includes (array : list value) (v : value) : bool :=
  existsb (fun w => same_value_zero w v) array.

(** [array[i]]: [undefined] out of range. *)
Definition index (array : list value) (i : nat) : value :=
  default VUndefined (array !! i).

(** [object.key]: [undefined] when the key is absent. *)
Definition get (key : string) (object : gmap string value) : value :=
  default VUndefined (object !! key).

(** [[...new Set(array)]]: [Set.prototype.add] keeps the first occurrence, in
    insertion order. *)
Definition Set_add (set : list string) (x : string) : list string :=
  if bool_decide (x ∈ set) then set else set ++ [x].

Definition new_Set (array : list string) : list string :=
  fold_left Set_add array [].

(** ** Data model *)

(** An entry of [typesDefinitions.json]: a type code, compared with [===] to
    the [Typ] attribute, and the designation label that names the output
    file. *)
Record TypeDefinition := {
  type : value;
  designation : string
}.

(** The geometry of a line: the script maps over [geometry.coordinates] as
    over a list of positions and reads the first two entries of each.
    Shapes whose coordinates are nested otherwise (a point, a polygon, a
    line of several parts) or absent are not among the inputs described
    here. *)
Record Geometry := {
  coordinates : list (list value)
}.

Record Feature := {
  geometry : Geometry;
  properties : gmap string value
}.

(** [{ type, features, bbox }]; the elements of [features] are features until
    the classification pass, which may store what [spinner.fail] returns. *)
Record Collection (A : Type) := {
  gtype : value;
  features : list A;
  bbox : list value
}.
Arguments gtype {A} _.
Arguments features {A} _.
Arguments bbox {A} _.

Inductive element :=
| EFeature (feature : Feature)
| ESpinner.

Record WGS := {
  longitude : float;
  latitude : float
}.

Record Options := {
  inputFileName : string;
  outputFileName : string;
  typesDefinitions : option (list TypeDefinition)
}.

(** ** JSON.stringify followed by JSON.parse

    A written file is represented by the value [JSON.parse] reads back from
    it. Non-finite numbers become [null], [-0] becomes [0], a property whose
    value is [undefined] is omitted and an [undefined] array element becomes
    [null]. *)

Definition json_num (x : float) : value :=
  if is_nan x || is_infinity x then VNull
  else if PrimFloat.eqb x 0%float then VNum 0%float
  else VNum x.

Definition json_prop (v : value) : option value :=
  match v with
  | VUndefined => None
  | VNum x => Some (json_num x)
  | _ => Some v
  end.

Definition json_elem (v : value) : value := default VNull (json_prop v).

Definition json_feature (feature : Feature) : Feature :=
  {| geometry := {| coordinates := map (map json_elem) (coordinates (geometry feature)) |};
     properties := omap json_prop (properties feature) |}.

Definition json_collection (geojson : Collection Feature) : Collection Feature :=
  {| gtype := default VUndefined (json_prop (gtype geojson));
     features := map json_feature (features geojson);
     bbox := map json_elem (bbox geojson) |}.

(** ** Effects: the status sink, the file system, exceptions *)

(** What can be thrown: the [Error] of [_getGeoJson] with the cause it
    wraps, a [TypeError], a [ReferenceError] for a name that is not in scope,
    and the rejection of [fs.writeFile]. *)
Inductive exn :=
| ParseError (cause : string)
| TypeError
| ReferenceError (name : string)
| WriteError (path : string).

(** The texts handed to the spinner, with the interpolated values kept as
    they are. *)
Inductive message :=
| msg_shapeToGeojson
| msg_reading (inputFileName : string)
| msg_error_reading (err : exn)
| msg_valid_type (type : value)
| msg_type_definition_not_found (type : value)
| msg_unknown_type (type : value)
| msg_invalid_type (type LAGE : value)
| msg_processing_designation (designation : string)
| msg_wrote_file (outputFile : string)
| msg_error_saving (outputFile : string)
| msg_wrote (outputFileName : string).

(** [ora(..).start()], [spinner.text = ..], [spinner.warn(..)],
    [spinner.fail(..)], [spinner.error(..)], [spinner.succeed(..)]. *)
Inductive level := Start | Text | Warn | Fail | Error | Succeed.

Inductive event :=
| Spinner (l : level) (m : message)
| WriteFile (path : string).

Record state := {
  trace : list event;
  disk : gmap string (Collection Feature)
}.

Inductive result (A : Type) :=
| Ok (a : A)
| Throw (e : exn).
Arguments Ok {A} _.
Arguments Throw {A} _.

Definition M (A : Type) : Type := state -> result A * state.

Definition ret {A} (a : A) : M A := fun s => (Ok a, s).

Definition bind {A B} (m : M A) (k : A -> M B) : M B :=
  fun s => match m s with
           | (Ok a, s') => k a s'
           | (Throw e, s') => (Throw e, s')
           end.

Definition throw {A} (e : exn) : M A := fun s => (Throw e, s).

(** [try { m } catch (err) { .. }]: the completion of [m] is handed on. *)
Definition try_catch {A} (m : M A) : M (A + exn) :=
  fun s => match m s with
           | (Ok a, s') => (Ok (inl a), s')
           | (Throw e, s') => (Ok (inr e), s')
           end.

Definition emit (e : event) : M unit :=
  fun s => (Ok tt, {| trace := trace s ++ [e]; disk := disk s |}).

Definition spinner (l : level) (m : message) : M unit := emit (Spinner l m).

Declare Scope js_scope.
Delimit Scope js_scope with js.
Notation "'let*' x := m 'in' k" := (bind m (fun x => k))
  (at level 10, x name, m at level 100, k at level 200) : js_scope.
Notation "m ;; k" := (bind m (fun _ => k))
  (at level 100, k at level 200, right associativity) : js_scope.
Open Scope js_scope.

(** [array.map(callback)] with a callback that has effects. *)
Fixpoint mapM {A B} (callback : A -> M B) (array : list A) : M (list B) :=
  match array with
  | [] => ret []
  | x :: array =>
      let* y := callback x in
      let* ys := mapM callback array in
      ret (y :: ys)
  end.

(** ** The script *)

Section Script.

(** [shapefile.read(shp, dbf, ..)]: the collection read, or the cause of the
    failure. *)
Variable shapefile_read : string -> string -> Collection Feature + string.

(** [path.resolve(__dirname, name)] *)
Variable path_resolve : string -> string.

(** Whether [fs.writeFile] to a path succeeds; a write that fails is taken
    to leave the disk as it was. *)
Variable writable : string -> bool.

(** [gk.toWGS({ x, y })], on the coordinates it accepts: the transform is
    taken to return for every position and corner of the shapefile. A call
    that throws (a coordinate that is not a number or lies outside the
    zones of the projection) ends the run in lines 103-118, before any
    file is written; such runs are not among those described here. *)
Variable toWGS : value -> value -> WGS.

(** The callback of lines 22-26. *)
Definition cleanup (feature : Feature) : Feature :=
  let properties1 :=
    <["LAGE" := js_or (get "LAGE" (properties feature)) (VStr "UNKNOWN")]> (properties feature) in
  let properties2 :=
    <["Typ" := js_or (get "Typ" properties1) (VStr "UNKNOWN")]> properties1 in
  {| geometry := geometry feature; properties := properties2 |}.

Definition _getGeoJson (shp dbf : string) : M (Collection Feature) :=
  match shapefile_read shp dbf with
  | inl geojson =>
      ret {| gtype := gtype geojson;
             features := map cleanup (features geojson);
             bbox := bbox geojson |}
  | inr err => throw (ParseError err)
  end.

Definition writeFile (path : string) (data : Collection Feature) : M unit :=
  fun s =>
    if writable path
    then (Ok tt, {| trace := trace s ++ [WriteFile path]; disk := <[path := data]> (disk s) |})
    else (Throw (WriteError path), s).

Definition _saveGeoJson (outputFileName : string) (geojson : Collection Feature) : M unit :=
  let geojsonString := json_collection geojson in
  writeFile (outputFileName +:+ ".geojson") geojsonString.

(** The callback of lines 81-100, with the two lists it closes over as
    arguments. The local set [types] is filled and never read. *)
Definition classifyFeature (TYPES : list value) (typesDefinitions : list TypeDefinition)
    (feature : Feature) : M element :=
  let type_ := get "Typ" (properties feature) in
  if negb (Nat.eqb (length TYPES) 0) then
    if truthy type_ && includes TYPES type_ then
      spinner Text (msg_valid_type type_) ;;
      match find (fun t => strict_eq (type t) type_) typesDefinitions with
      | Some typeDefinition =>
          ret (EFeature
                 {| geometry := geometry feature;
                    properties := <["designation" := VStr (designation typeDefinition)]>
                                    (properties feature) |})
      | None =>
          spinner Fail (msg_type_definition_not_found type_) ;;
          ret ESpinner
      end
    else if truthy type_ then
      spinner Warn (msg_unknown_type type_) ;;
      ret (EFeature feature)
    else
      spinner Error (msg_invalid_type type_ (get "LAGE" (properties feature))) ;;
      ret (EFeature feature)
  else ret (EFeature feature).

(** The inner callback of lines 104-110. *)
Definition reprojectCoordinates (coordinates : list value) : list value :=
  let wgs := toWGS (index coordinates 0) (index coordinates 1) in
  [VNum (longitude wgs); VNum (latitude wgs)].

(** The callback of lines 103-112; reading [.geometry.coordinates] of what
    [spinner.fail] returned throws. *)
Definition reprojectFeature (feature : element) : M Feature :=
  match feature with
  | EFeature feature =>
      ret {| geometry := {| coordinates := map reprojectCoordinates (coordinates (geometry feature)) |};
             properties := properties feature |}
  | ESpinner => throw TypeError
  end.

(** Lines 113-118. *)
Definition reprojectBbox (bbox : list value) : list value :=
  [ VNum (latitude (toWGS (index bbox 0) (index bbox 1)));
    VNum (longitude (toWGS (index bbox 0) (index bbox 1)));
    VNum (latitude (toWGS (index bbox 2) (index bbox 3)));
    VNum (longitude (toWGS (index bbox 2) (index bbox 3))) ].

(** The filter of lines 123-125, on a feature that went through JSON. *)
Definition has_designation (designation : string) (f : Feature) : bool :=
  strict_eq (get "designation" (properties f)) (VStr designation).

(** Lines 121-137. The result tells whether the function returned inside the
    loop. [outputFile] is declared with [const] inside the [try] block, so
    the template of the [catch] block reads a name that is not in scope. *)
Fixpoint forDesignations (outputFileName : string) (geojson : Collection Feature)
    (DESIGNATIONS : list string) : M bool :=
  match DESIGNATIONS with
  | [] => ret false
  | designation :: DESIGNATIONS =>
      spinner Text (msg_processing_designation designation) ;;
      let features_ :=
        List.filter (has_designation designation) (map json_feature (features geojson)) in
      let* r := try_catch (
        let outputFile := outputFileName +:+ "_" +:+ designation in
        _saveGeoJson outputFile
          {| gtype := gtype geojson; features := features_; bbox := bbox geojson |} ;;
        spinner Text (msg_wrote_file outputFile)) in
      match r with
      | inl _ => forDesignations outputFileName geojson DESIGNATIONS
      | inr err => throw (ReferenceError "outputFile")
      end
  end.

Definition shapeToGeojson (options : Options) : M unit :=
  spinner Start msg_shapeToGeojson ;;
  let inputFileName := inputFileName options in
  let outputFileName := outputFileName options in
  let typesDefinitions := default [] (typesDefinitions options) in
  let TYPES := map type typesDefinitions in
  let DESIGNATIONS := new_Set (map designation typesDefinitions) in
  spinner Text (msg_reading inputFileName) ;;
  let* r := try_catch (_getGeoJson (path_resolve (inputFileName +:+ ".shp"))
                             (path_resolve (inputFileName +:+ ".dbf"))) in
  match r with
  | inr err => spinner Fail (msg_error_reading err)
  | inl geojson =>
      let* classified := mapM (classifyFeature TYPES typesDefinitions) (features geojson) in
      let* reprojected := mapM reprojectFeature classified in
      let geojson :=
        {| gtype := gtype geojson;
           features := reprojected;
           bbox := reprojectBbox (bbox geojson) |} in
      let* returned := forDesignations outputFileName geojson DESIGNATIONS in
      if returned : bool then ret tt
      else
        let* r := try_catch (_saveGeoJson outputFileName geojson) in
        match r with
        | inl _ => spinner Succeed (msg_wrote outputFileName)
        | inr err => spinner Fail (msg_error_saving outputFileName)
        end
  end.

(** Lines 148-160: the call the script makes when it is run, with the
    content of [typesDefinitions.json] as an argument. *)
Definition main (TYPE_DEFINITIONS : list TypeDefinition) : M unit :=
  shapeToGeojson
    {| inputFileName := "../data/Radverkehr/Radverkehr_Fuerth";
       outputFileName := "./output/Radverkehr_Fuerth";
       typesDefinitions := Some TYPE_DEFINITIONS |}.

(** ** Definitions used in the statements *)

(** The path of the file of a designation, as [_saveGeoJson] builds it from
    the [outputFile] of the loop. *)
Definition designation_path (outputFileName designation : string) : string :=
  (outputFileName +:+ "_" +:+ designation) +:+ ".geojson".

(** The state after some more events. *)
Definition add_events (es : list event) (s : state) : state :=
  {| trace := trace s ++ es; disk := disk s |}.

(** The feature the callback returns when the codes are those of the
    definitions. *)
Definition classified (typesDefinitions : list TypeDefinition) (feature : Feature) : Feature :=
  let type_ := get "Typ" (properties feature) in
  if truthy type_ then
    match find (fun t => strict_eq (type t) type_) typesDefinitions with
    | Some typeDefinition =>
        {| geometry := geometry feature;
           properties := <["designation" := VStr (designation typeDefinition)]>
                           (properties feature) |}
    | None => feature
    end
  else feature.

(** What the callback tells the spinner in that case. *)
Definition diagnostics (typesDefinitions : list TypeDefinition) (feature : Feature) : list event :=
  let type_ := get "Typ" (properties feature) in
  match typesDefinitions with
  | [] => []
  | _ :: _ =>
      if truthy type_ then
        match find (fun t => strict_eq (type t) type_) typesDefinitions with
        | Some _ => [Spinner Text (msg_valid_type type_)]
        | None => [Spinner Warn (msg_unknown_type type_)]
        end
      else [Spinner Error (msg_invalid_type type_ (get "LAGE" (properties feature)))]
  end.

(** The feature [reprojectFeature] returns for a feature. *)
Definition reprojected (feature : Feature) : Feature :=
  {| geometry := {| coordinates := map reprojectCoordinates (coordinates (geometry feature)) |};
     properties := properties feature |}.

(** The content of the file of a designation. *)
Definition designation_file (geojson : Collection Feature) (designation : string)
    : Collection Feature :=
  json_collection
    {| gtype := gtype geojson;
       features := List.filter (has_designation designation)
                     (map json_feature (features geojson));
       bbox := bbox geojson |}.

(** The disk after the file of a designation was written. *)
Definition write_designation (outputFileName : string) (geojson : Collection Feature)
    (files : gmap string (Collection Feature)) (designation : string)
    : gmap string (Collection Feature) :=
  <[designation_path outputFileName designation := designation_file geojson designation]> files.

(** The events of one round of the loop when the file can be written. *)
Definition designation_events (outputFileName designation : string) : list event :=
  [ Spinner Text (msg_processing_designation designation);
    WriteFile (designation_path outputFileName designation);
    Spinner Text (msg_wrote_file (outputFileName +:+ "_" +:+ designation)) ].

(** The collection after the three passes over a collection that was read. *)
Definition processed (typesDefinitions : list TypeDefinition) (geojson : Collection Feature)
    : Collection Feature :=
  {| gtype := gtype geojson;
     features := map (fun f => reprojected (classified typesDefinitions (cleanup f)))
                   (features geojson);
     bbox := reprojectBbox (bbox geojson) |}.

(** What reading the shapefile of the options gives. *)
Definition read_options (options : Options) : Collection Feature + string :=
  shapefile_read (path_resolve (inputFileName options +:+ ".shp"))
                 (path_resolve (inputFileName options +:+ ".dbf")).

(** [typesDefinitions] after [Object.assign] with the default. *)
Definition definitions (options : Options) : list TypeDefinition :=
  default [] (typesDefinitions options).

(** The [DESIGNATIONS] of a run. *)
Definition DESIGNATIONS_of (options : Options) : list string :=
  new_Set (map designation (definitions options)).

(** What the spinner is told up to the end of the classification pass. *)
Definition events_before_writing (options : Options) (geojson : Collection Feature) : list event :=
  [Spinner Start msg_shapeToGeojson; Spinner Text (msg_reading (inputFileName options))]
  ++ concat (map (diagnostics (definitions options)) (map cleanup (features geojson))).

(** The four ways a run can go. *)
Inductive run_case (options : Options) (s : state) : result unit * state -> Prop :=
| read_failed cause :
    read_options options = inr cause ->
    run_case options s
      (Ok tt,
       add_events [Spinner Start msg_shapeToGeojson;
                   Spinner Text (msg_reading (inputFileName options));
                   Spinner Fail (msg_error_reading (ParseError cause))] s)
| designation_failed geojson written d rest :
    read_options options = inl geojson ->
    DESIGNATIONS_of options = written ++ d :: rest ->
    (forall d', d' ∈ written ->
                writable (designation_path (outputFileName options) d') = true) ->
    writable (designation_path (outputFileName options) d) = false ->
    run_case options s
      (Throw (ReferenceError "outputFile"),
       {| trace := trace s
            ++ events_before_writing options geojson
            ++ concat (map (designation_events (outputFileName options)) written)
            ++ [Spinner Text (msg_processing_designation d)];
          disk := fold_left (write_designation (outputFileName options)
                               (processed (definitions options) geojson))
                    written (disk s) |})
| combined_failed geojson :
    read_options options = inl geojson ->
    (forall d, d ∈ DESIGNATIONS_of options ->
               writable (designation_path (outputFileName options) d) = true) ->
    writable (outputFileName options +:+ ".geojson") = false ->
    run_case options s
      (Ok tt,
       {| trace := trace s
            ++ events_before_writing options geojson
            ++ concat (map (designation_events (outputFileName options))
                         (DESIGNATIONS_of options))
            ++ [Spinner Fail (msg_error_saving (outputFileName options))];
          disk := fold_left (write_designation (outputFileName options)
                               (processed (definitions options) geojson))
                    (DESIGNATIONS_of options) (disk s) |})
| all_written geojson :
    read_options options = inl geojson ->
    (forall d, d ∈ DESIGNATIONS_of options ->
               writable (designation_path (outputFileName options) d) = true) ->
    writable (outputFileName options +:+ ".geojson") = true ->
    run_case options s
      (Ok tt,
       {| trace := trace s
            ++ events_before_writing options geojson
            ++ concat (map (designation_events (outputFileName options))
                         (DESIGNATIONS_of options))
            ++ [WriteFile (outputFileName options +:+ ".geojson");
                Spinner Succeed (msg_wrote (outputFileName options))];
          disk := <[outputFileName options +:+ ".geojson" :=
                      json_collection (processed (definitions options) geojson)]>
                    (fold_left (write_designation (outputFileName options)
                                  (processed (definitions options) geojson))
                       (DESIGNATIONS_of options) (disk s)) |}).

(** How [cleanup] relates a feature as read to the feature handed on. *)
Definition defaults_filled (before after : Feature) : Prop :=
  geometry after = geometry before /\
  (forall key, key = "LAGE" \/ key = "Typ" ->
     (truthy (get key (properties before)) = false ->
      properties after !! key = Some (VStr "UNKNOWN")) /\
     (truthy (get key (properties before)) = true ->
      properties after !! key = properties before !! key)) /\
  (forall key, key <> "LAGE" -> key <> "Typ" ->
     properties after !! key = properties before !! key).

(** The events of the stages around the classification pass. *)
Definition stage_event (e : event) : bool :=
  match e with
  | WriteFile _ => true
  | Spinner Start msg_shapeToGeojson => true
  | Spinner Text (msg_reading _) => true
  | Spinner Fail (msg_error_reading _) => true
  | Spinner Text (msg_processing_designation _) => true
  | Spinner Text (msg_wrote_file _) => true
  | Spinner Fail (msg_error_saving _) => true
  | Spinner Succeed (msg_wrote _) => true
  | _ => false
  end.

(** The events of the classification of a feature that went through the
    loader: its type code is truthy, so the last branch is never taken. *)
Definition classification_event (typesDefinitions : list TypeDefinition) (e : event) : Prop :=
  exists v, truthy v = true /\
    ((e = Spinner Text (msg_valid_type v) /\ includes (map type typesDefinitions) v = true) \/
     (e = Spinner Warn (msg_unknown_type v) /\ includes (map type typesDefinitions) v = false)).

(** How the classification relates a loaded feature to the feature handed
    on: the designation of the first definition whose code is the [Typ] of
    the feature, when there is one, and the feature as loaded otherwise. *)
Definition designation_attached (typesDefinitions : list TypeDefinition)
    (loaded after : Feature) : Prop :=
  geometry after = geometry loaded /\
  (forall key, key <> "designation" -> properties after !! key = properties loaded !! key) /\
  (forall td, td ∈ typesDefinitions ->
     strict_eq (type td) (get "Typ" (properties loaded)) = true ->
     exists first,
       find (fun t => strict_eq (type t) (get "Typ" (properties loaded))) typesDefinitions
         = Some first /\
       first ∈ typesDefinitions /\
       strict_eq (type first) (get "Typ" (properties loaded)) = true /\
       properties after !! "designation" = Some (VStr (designation first))) /\
  ((forall td, td ∈ typesDefinitions ->
      strict_eq (type td) (get "Typ" (properties loaded)) = false) ->
   properties after = properties loaded).

(** The designation the definitions give to a type code: that of the first
    definition with this code. *)
Definition configured_designation (typesDefinitions : list TypeDefinition) (v : value)
    : option string :=
  designation <$> find (fun t => strict_eq (type t) v) typesDefinitions.

(** The paths written, in order. *)
Fixpoint writes (es : list event) : list string :=
  match es with
  | [] => []
  | WriteFile path :: es => path :: writes es
  | Spinner _ _ :: es => writes es
  end.

(** A run has succeeded when the last thing it did was [spinner.succeed]. *)
Definition succeeded (options : Options) (s : state) : Prop :=
  last (trace (shapeToGeojson options s).2) =
  Some (Spinner Succeed (msg_wrote (outputFileName options))).

(** [selected P l l']: [l'] holds, in the order of [l], the elements of
    [l] that satisfy [P], and no other. *)
Inductive selected {A} (P : A -> Prop) : list A -> list A -> Prop :=
| selected_nil : selected P [] []
| selected_keep x l l' : P x -> selected P l l' -> selected P (x :: l) (x :: l')
| selected_drop x l l' : ~ P x -> selected P l l' -> selected P (x :: l) l'.

(** What a key of the properties holds after the loader and the classifier,
    told from the feature as read: the designation of the first definition
    whose code is the [Typ] of the feature, ["UNKNOWN"] read for a falsy
    [Typ]; ["UNKNOWN"] for a falsy [LAGE] or [Typ]; what was read for every
    other key, and for [designation] when no code matches. *)
Definition expected_property (typesDefinitions : list TypeDefinition) (read : Feature)
    (key : string) : option value :=
  let Typ := js_or (get "Typ" (properties read)) (VStr "UNKNOWN") in
  if String.eqb key "designation" then
    match configured_designation typesDefinitions Typ with
    | Some d => Some (VStr d)
    | None => properties read !! "designation"
    end
  else if String.eqb key "LAGE" then
    Some (js_or (get "LAGE" (properties read)) (VStr "UNKNOWN"))
  else if String.eqb key "Typ" then Some Typ
  else properties read !! key.

(** A feature of the combined file, told from the feature as read: every
    position is the longitude and the latitude of the image of its first
    two entries, and every key holds what is expected of it, both as JSON
    keeps them. *)
Definition written_feature (typesDefinitions : list TypeDefinition)
    (read written : Feature) : Prop :=
  coordinates (geometry written) =
    map (fun position =>
           [json_elem (VNum (longitude (toWGS (index position 0) (index position 1))));
            json_elem (VNum (latitude (toWGS (index position 0) (index position 1))))])
        (coordinates (geometry read)) /\
  forall key,
    properties written !! key = expected_property typesDefinitions read key ≫= json_prop.

(** A run in which the combined file could not be written: the last thing
    it did was the [spinner.fail] of line 144. *)
Definition combined_write_failed (options : Options) (s : state) : Prop :=
  last (trace (shapeToGeojson options s).2) =
  Some (Spinner Fail (msg_error_saving (outputFileName options))).

(** The paths a run writes when every write succeeds. *)
Definition output_paths (options : Options) : list string :=
  map (designation_path (outputFileName options)) (DESIGNATIONS_of options)
  ++ [outputFileName options +:+ ".geojson"].

(** Partition completeness of the files on a disk: the features of the
    files of the designations are those of the combined file that have a
    [designation], and no feature is in the files of two designations. *)
Definition partition_complete (options : Options)
    (files : gmap string (Collection Feature)) : Prop :=
  exists combined,
    files !! (outputFileName options +:+ ".geojson") = Some combined /\
    (forall f,
       (exists d file,
          d ∈ DESIGNATIONS_of options /\
          files !! designation_path (outputFileName options) d = Some file /\
          f ∈ features file)
       <-> (f ∈ features combined /\ is_Some (properties f !! "designation"))) /\
    (forall d d' file file' f,
       d ∈ DESIGNATIONS_of options -> d' ∈ DESIGNATIONS_of options ->
       files !! designation_path (outputFileName options) d = Some file ->
       files !! designation_path (outputFileName options) d' = Some file' ->
       f ∈ features file -> f ∈ features file' -> d = d').

(** ** Inputs of the concrete runs *)

(** A stand-in for the geodetic transform in the runs below. *)
Definition sample_toWGS (x y : value) : WGS :=
  match x, y with
  | VNum a, VNum b => {| longitude := (a / 400000)%float; latitude := (b / 110000)%float |}
  | _, _ => {| longitude := nan; latitude := nan |}
  end.

(** A line of two positions with the attributes [Typ] and [LAGE]. *)
Definition sample_feature (Typ LAGE : value) : Feature :=
  {| geometry := {| coordinates := [[VNum 4420000%float; VNum 5480000%float];
                                    [VNum 4420100%float; VNum 5480100%float]] |};
     properties := <["Typ" := Typ]> (<["LAGE" := LAGE]> ∅) |}.

(** Three features with the type codes ["A"], ["B"] and [null]. *)
Definition sample_collection : Collection Feature :=
  {| gtype := VStr "FeatureCollection";
     features := [ sample_feature (VStr "A") (VStr "Hauptstrasse");
                   sample_feature (VStr "B") (VStr "Nebenstrasse");
                   sample_feature VNull (VStr "Feldweg") ];
     bbox := [VNum 4420000%float; VNum 5480000%float;
              VNum 4430000%float; VNum 5490000%float] |}.

Definition sample_definitions : list TypeDefinition :=
  [ {| type := VStr "A"; designation := "X" |};
    {| type := VStr "B"; designation := "Y" |} ].

Definition sample_options : Options :=
  {| inputFileName := "in"; outputFileName := "out";
     typesDefinitions := Some sample_definitions |}.

Definition sample_read (shp dbf : string) : Collection Feature + string :=
  inl sample_collection.

(** A file system on which every write succeeds, and one on which the file
    of the designation ["Y"] cannot be written. *)
Definition everywhere (path : string) : bool := true.

Definition all_but_Y (path : string) : bool := negb (String.eqb path "out_Y.geojson").

Definition empty_state : state := {| trace := []; disk := ∅ |}.

(** A shapefile that cannot be read, and a file system on which only the
    combined file cannot be written. *)
Definition failing_read (shp dbf : string) : Collection Feature + string :=
  inr "ENOENT".

Definition all_but_combined (path : string) : bool :=
  negb (String.eqb path "out.geojson").

(** Definitions that configure the code the loader fills in. *)
Definition UNKNOWN_definitions : list TypeDefinition :=
  [ {| type := VStr "A"; designation := "X" |};
    {| type := VStr "UNKNOWN"; designation := "Rest" |} ].

(** A feature that was read with an attribute [designation] and a type code
    that is not configured. *)
Definition stale_feature : Feature :=
  {| geometry := {| coordinates := [[VNum 4420000%float; VNum 5480000%float]] |};
     properties := <["designation" := VStr "Q"]> (<["Typ" := VStr "Z"]> ∅) |}.

Definition stale_collection : Collection Feature :=
  {| gtype := VStr "FeatureCollection";
     features := [stale_feature];
     bbox := [VNum 4420000%float; VNum 5480000%float;
              VNum 4430000%float; VNum 5490000%float] |}.

Definition stale_read (shp dbf : string) : Collection Feature + string :=
  inl stale_collection.

Definition stale_options : Options :=
  {| inputFileName := "in"; outputFileName := "out";
     typesDefinitions := Some [ {| type := VStr "A"; designation := "X" |} ] |}.

(** * Properties *)

(** ** Values *)

Lemma truthy_js_or (a b : value) : truthy b = true -> truthy (js_or a b) = true.
Proof. unfold js_or. destruct (truthy a) eqn:Ha; auto. Qed.

Lemma js_or_truthy (a b : value) : truthy a = true -> js_or a b = a.
Proof. unfold js_or. intros ->. reflexivity. Qed.

Lemma js_or_falsy (a b : value) : truthy a = false -> js_or a b = b.
Proof. unfold js_or. intros ->. reflexivity. Qed.

(** On a truthy searched value [includes] compares as [===] does: the two
    differ on [NaN] only, which is falsy. *)
Lemma truthy_same_value_zero (v w : value) :
  truthy v = true -> same_value_zero w v = strict_eq w v.
Proof.
  destruct v as [| |b|x|s], w as [| |b'|y|s']; simpl; try reflexivity.
  intros H. apply negb_true_iff, orb_false_iff in H as [_ Hnan].
  rewrite Hnan, andb_false_r, orb_false_r. reflexivity.
Qed.

Lemma strict_eq_VStr (v : value) (s : string) :
  strict_eq v (VStr s) = true <-> v = VStr s.
Proof.
  destruct v; simpl; split; try discriminate; try (intros H; inversion H; fail).
  - intros H. apply String.eqb_eq in H. congruence.
  - intros H. inversion H. apply String.eqb_refl.
Qed.

(** What [includes] finds in the list of type codes, [find] finds in the
    list the codes were taken from. *)
Lemma includes_find (typesDefinitions : list TypeDefinition) (v : value) :
  truthy v = true ->
  includes (map type typesDefinitions) v = true ->
  is_Some (find (fun t => strict_eq (type t) v) typesDefinitions).
Proof.
  intros Hv. induction typesDefinitions as [|t l IH]; simpl.
  - discriminate.
  - rewrite (truthy_same_value_zero _ _ Hv).
    destruct (strict_eq (type t) v); simpl; eauto.
Qed.

Lemma find_includes (typesDefinitions : list TypeDefinition) (v : value) :
  truthy v = true ->
  find (fun t => strict_eq (type t) v) typesDefinitions = None ->
  includes (map type typesDefinitions) v = false.
Proof.
  intros Hv. induction typesDefinitions as [|t l IH]; simpl.
  - reflexivity.
  - rewrite (truthy_same_value_zero _ _ Hv).
    destruct (strict_eq (type t) v); simpl; [discriminate | exact IH].
Qed.

(** ** The set of designations *)

Lemma fold_Set_add (array set : list string) :
  NoDup set ->
  NoDup (fold_left Set_add array set) /\
  forall x, x ∈ fold_left Set_add array set <-> x ∈ set \/ x ∈ array.
Proof.
  revert set. induction array as [|a array IH]; intros set Hset; simpl.
  - split; [exact Hset|]. intros x. rewrite elem_of_nil. tauto.
  - assert (Hadd : NoDup (Set_add set a) /\ forall x, x ∈ Set_add set a <-> x ∈ set \/ x = a).
    { unfold Set_add. case_bool_decide as Ha.
      - split; [exact Hset|]. intros x. split; [tauto|]. intros [H| ->]; assumption.
      - split.
        + apply NoDup_app. split; [exact Hset|]. split.
          * intros x Hx Hx'. apply list_elem_of_singleton in Hx'. subst. contradiction.
          * apply NoDup_singleton.
        + intros x. rewrite elem_of_app, list_elem_of_singleton. tauto. }
    destruct Hadd as [Hnd Hin]. destruct (IH _ Hnd) as [IH1 IH2].
    split; [exact IH1|]. intros x. rewrite IH2, Hin, elem_of_cons. tauto.
Qed.

Lemma NoDup_new_Set (array : list string) : NoDup (new_Set array).
Proof. apply fold_Set_add, NoDup_nil_2. Qed.

Lemma elem_of_new_Set (array : list string) (x : string) :
  x ∈ new_Set array <-> x ∈ array.
Proof.
  unfold new_Set. destruct (fold_Set_add array [] (NoDup_nil_2)) as [_ H].
  rewrite H, elem_of_nil. tauto.
Qed.

(** The set has as many elements as there are distinct labels. *)
Lemma length_new_Set (array : list string) :
  length (new_Set array) = size (list_to_set array : gset string).
Proof.
  rewrite <- (size_list_to_set (C := gset string) (new_Set array)) by apply NoDup_new_Set.
  f_equal. apply set_eq. intros x.
  rewrite !elem_of_list_to_set. apply elem_of_new_Set.
Qed.

(** ** JSON *)

Lemma json_num_fixed (x : float) : json_prop (json_num x) = Some (json_num x).
Proof.
  unfold json_num.
  destruct (is_nan x || is_infinity x) eqn:E1; [reflexivity|].
  destruct (PrimFloat.eqb x 0) eqn:E2; simpl.
  - reflexivity.
  - unfold json_num. rewrite E1, E2. reflexivity.
Qed.

Lemma json_prop_idem (v w : value) : json_prop v = Some w -> json_prop w = Some w.
Proof.
  destruct v; simpl; intros H; inversion H; subst; try reflexivity.
  apply json_num_fixed.
Qed.

Lemma json_elem_idem (v : value) : json_elem (json_elem v) = json_elem v.
Proof.
  unfold json_elem. destruct (json_prop v) as [w|] eqn:E; simpl.
  - rewrite (json_prop_idem _ _ E). reflexivity.
  - reflexivity.
Qed.

Lemma json_feature_idem (f : Feature) : json_feature (json_feature f) = json_feature f.
Proof.
  unfold json_feature. simpl. f_equal.
  - f_equal. rewrite map_map. apply map_ext. intros c.
    rewrite map_map. apply map_ext. intros v. apply json_elem_idem.
  - apply map_eq. intros k. rewrite !lookup_omap.
    destruct (properties f !! k) as [v|]; simpl; [|reflexivity].
    destruct (json_prop v) as [w|] eqn:E; simpl; [|reflexivity].
    apply (json_prop_idem _ _ E).
Qed.

(** ** Output paths *)

Lemma string_app_assoc (a b c : string) : (a +:+ b) +:+ c = a +:+ (b +:+ c).
Proof.
  induction a as [|x a IH]; [reflexivity|].
  change (String x ((a +:+ b) +:+ c) = String x (a +:+ (b +:+ c))).
  rewrite IH. reflexivity.
Qed.

Lemma list_ascii_of_string_app (a b : string) :
  String.list_ascii_of_string (a +:+ b) = String.list_ascii_of_string a ++ String.list_ascii_of_string b.
Proof.
  induction a as [|x a IH]; [reflexivity|].
  change (x :: String.list_ascii_of_string (a +:+ b) =
          x :: (String.list_ascii_of_string a ++ String.list_ascii_of_string b)).
  rewrite IH. reflexivity.
Qed.

Lemma string_app_inv_tail (a b c : string) : a +:+ c = b +:+ c -> a = b.
Proof.
  intros H. apply (f_equal String.list_ascii_of_string) in H.
  rewrite !list_ascii_of_string_app in H. apply app_inv_tail in H.
  apply (f_equal String.string_of_list_ascii) in H.
  rewrite !String.string_of_list_ascii_of_string in H. exact H.
Qed.

Lemma designation_path_inj (outputFileName d d' : string) :
  designation_path outputFileName d = designation_path outputFileName d' -> d = d'.
Proof.
  unfold designation_path. intros H. apply string_app_inv_tail in H.
  apply (inj (String.app outputFileName)) in H.
  apply (inj (String.app "_")) in H. exact H.
Qed.

Lemma designation_path_combined (outputFileName d : string) :
  designation_path outputFileName d <> outputFileName +:+ ".geojson".
Proof.
  unfold designation_path. rewrite string_app_assoc. intros H.
  apply (inj (String.app outputFileName)) in H. discriminate H.
Qed.

(** ** Runs *)

Lemma add_events_nil (s : state) : add_events [] s = s.
Proof. destruct s. unfold add_events. simpl. rewrite app_nil_r. reflexivity. Qed.

Lemma add_events_app (es es' : list event) (s : state) :
  add_events es' (add_events es s) = add_events (es ++ es') s.
Proof. unfold add_events. simpl. rewrite app_assoc. reflexivity. Qed.

Lemma spinner_run (l : level) (m : message) (s : state) :
  spinner l m s = (Ok tt, add_events [Spinner l m] s).
Proof. reflexivity. Qed.

(** [map] with a callback that always completes: the results in order, the
    events in order. *)
Lemma mapM_run {A B} (callback : A -> M B) (g : A -> B) (ev : A -> list event)
    (array : list A) :
  (forall x s, x ∈ array -> callback x s = (Ok (g x), add_events (ev x) s)) ->
  forall s, mapM callback array s = (Ok (map g array), add_events (concat (map ev array)) s).
Proof.
  induction array as [|x array IH]; intros H s; simpl.
  - rewrite add_events_nil. reflexivity.
  - unfold bind. rewrite H by (apply elem_of_cons; left; reflexivity).
    rewrite IH by (intros y s' Hy; apply H, elem_of_cons; right; exact Hy).
    rewrite add_events_app. reflexivity.
Qed.

(** *** Classification *)

(** [includes] over the codes and [find] over the definitions agree on a
    truthy code. *)
Lemma includes_as_find (typesDefinitions : list TypeDefinition) (v : value) :
  truthy v = true ->
  includes (map type typesDefinitions) v =
  match find (fun t => strict_eq (type t) v) typesDefinitions with
  | Some _ => true
  | None => false
  end.
Proof.
  intros Hv. destruct (find _ typesDefinitions) as [t|] eqn:E.
  - destruct (includes (map type typesDefinitions) v) eqn:E'; [reflexivity|].
    induction typesDefinitions as [|t' l IH]; simpl in *; [discriminate|].
    rewrite (truthy_same_value_zero _ _ Hv) in E'.
    destruct (strict_eq (type t') v); simpl in *; [discriminate | auto].
  - apply find_includes; assumption.
Qed.

Lemma classifyFeature_run (typesDefinitions : list TypeDefinition) (feature : Feature) (s : state) :
  classifyFeature (map type typesDefinitions) typesDefinitions feature s =
  (Ok (EFeature (classified typesDefinitions feature)),
   add_events (diagnostics typesDefinitions feature) s).
Proof.
  unfold classifyFeature, classified, diagnostics.
  destruct typesDefinitions as [|t0 l].
  - simpl. rewrite add_events_nil. destruct (truthy _); reflexivity.
  - set (defs := t0 :: l). set (v := get "Typ" (properties feature)).
    replace (negb (length (map type defs) =? 0)) with true by reflexivity.
    destruct (truthy v) eqn:Hv.
    + rewrite (includes_as_find defs v Hv).
      destruct (find _ defs) as [t|] eqn:E; reflexivity.
    + reflexivity.
Qed.

Lemma classify_run (typesDefinitions : list TypeDefinition) (array : list Feature) (s : state) :
  mapM (classifyFeature (map type typesDefinitions) typesDefinitions) array s =
  (Ok (map (fun f => EFeature (classified typesDefinitions f)) array),
   add_events (concat (map (diagnostics typesDefinitions) array)) s).
Proof. apply mapM_run. intros f s' _. apply classifyFeature_run. Qed.

(** *** Reprojection *)

Lemma reproject_run (array : list Feature) (s : state) :
  mapM reprojectFeature (map EFeature array) s = (Ok (map reprojected array), s).
Proof.
  revert s. induction array as [|f array IH]; intros s; simpl; [reflexivity|].
  unfold bind at 1. simpl. unfold bind at 1. rewrite IH. reflexivity.
Qed.

(** The pass stops at the first element that is not a feature. *)
Lemma reproject_ESpinner (before : list Feature) (after : list element) (s : state) :
  mapM reprojectFeature (map EFeature before ++ ESpinner :: after) s = (Throw TypeError, s).
Proof.
  revert s. induction before as [|f before IH]; intros s; simpl; [reflexivity|].
  unfold bind at 1. simpl. unfold bind at 1. rewrite IH. reflexivity.
Qed.

(** *** Writing *)

Lemma _saveGeoJson_ok (outputFileName : string) (geojson : Collection Feature) (s : state) :
  writable (outputFileName +:+ ".geojson") = true ->
  _saveGeoJson outputFileName geojson s =
  (Ok tt, {| trace := trace s ++ [WriteFile (outputFileName +:+ ".geojson")];
             disk := <[outputFileName +:+ ".geojson" := json_collection geojson]> (disk s) |}).
Proof. unfold _saveGeoJson, writeFile. intros ->. reflexivity. Qed.

Lemma _saveGeoJson_fail (outputFileName : string) (geojson : Collection Feature) (s : state) :
  writable (outputFileName +:+ ".geojson") = false ->
  _saveGeoJson outputFileName geojson s = (Throw (WriteError (outputFileName +:+ ".geojson")), s).
Proof. unfold _saveGeoJson, writeFile. intros ->. reflexivity. Qed.

Lemma forDesignations_step (outputFileName : string) (geojson : Collection Feature)
    (d : string) (DESIGNATIONS : list string) (s : state) :
  writable (designation_path outputFileName d) = true ->
  forDesignations outputFileName geojson (d :: DESIGNATIONS) s =
  forDesignations outputFileName geojson DESIGNATIONS
    {| trace := trace s ++ designation_events outputFileName d;
       disk := write_designation outputFileName geojson (disk s) d |}.
Proof.
  intros Hw. simpl. unfold bind at 1. rewrite spinner_run.
  unfold bind at 1, try_catch at 1, bind at 1.
  rewrite _saveGeoJson_ok by exact Hw.
  rewrite spinner_run. unfold add_events. simpl.
  rewrite <- !app_assoc. reflexivity.
Qed.

Lemma forDesignations_ok (outputFileName : string) (geojson : Collection Feature)
    (DESIGNATIONS : list string) (s : state) :
  (forall d, d ∈ DESIGNATIONS -> writable (designation_path outputFileName d) = true) ->
  forDesignations outputFileName geojson DESIGNATIONS s =
  (Ok false,
   {| trace := trace s ++ concat (map (designation_events outputFileName) DESIGNATIONS);
      disk := fold_left (write_designation outputFileName geojson) DESIGNATIONS (disk s) |}).
Proof.
  revert s. induction DESIGNATIONS as [|d ds IH]; intros s Hw.
  - simpl. rewrite app_nil_r. destruct s; reflexivity.
  - rewrite forDesignations_step by (apply Hw, elem_of_cons; left; reflexivity).
    rewrite IH by (intros d' Hd'; apply Hw, elem_of_cons; right; exact Hd').
    simpl. rewrite <- !app_assoc. reflexivity.
Qed.

(** The first designation whose file cannot be written ends the run with
    the [ReferenceError] of the [catch] block. *)
Lemma forDesignations_fail (outputFileName : string) (geojson : Collection Feature)
    (written : list string) (d : string) (rest : list string) (s : state) :
  (forall d', d' ∈ written -> writable (designation_path outputFileName d') = true) ->
  writable (designation_path outputFileName d) = false ->
  forDesignations outputFileName geojson (written ++ d :: rest) s =
  (Throw (ReferenceError "outputFile"),
   {| trace := trace s ++ concat (map (designation_events outputFileName) written)
                       ++ [Spinner Text (msg_processing_designation d)];
      disk := fold_left (write_designation outputFileName geojson) written (disk s) |}).
Proof.
  revert s. induction written as [|d0 ds IH]; intros s Hw Hd.
  - simpl. unfold bind at 1. rewrite spinner_run.
    unfold bind at 1, try_catch at 1, bind at 1.
    rewrite _saveGeoJson_fail by exact Hd. reflexivity.
  - change ((d0 :: ds) ++ d :: rest) with (d0 :: (ds ++ d :: rest)).
    rewrite forDesignations_step by (apply Hw, elem_of_cons; left; reflexivity).
    rewrite IH by (try exact Hd; intros d' Hd'; apply Hw, elem_of_cons; right; exact Hd').
    simpl. rewrite <- !app_assoc. reflexivity.
Qed.

(** *** The whole run *)

Lemma shapeToGeojson_read_failed (options : Options) (cause : string) (s : state) :
  read_options options = inr cause ->
  shapeToGeojson options s =
  (Ok tt,
   add_events [Spinner Start msg_shapeToGeojson;
               Spinner Text (msg_reading (inputFileName options));
               Spinner Fail (msg_error_reading (ParseError cause))] s).
Proof.
  unfold read_options, shapeToGeojson. intros H.
  unfold bind at 1. rewrite spinner_run.
  unfold bind at 1. rewrite spinner_run.
  unfold bind at 1, try_catch at 1, _getGeoJson. rewrite H. simpl.
  rewrite spinner_run, !add_events_app. reflexivity.
Qed.

(** After a successful read the run is the two write stages, started in the
    state the passes leave. *)
Lemma shapeToGeojson_read (options : Options) (geojson : Collection Feature) (s : state) :
  read_options options = inl geojson ->
  shapeToGeojson options s =
  (let* returned := forDesignations (outputFileName options)
                      (processed (definitions options) geojson) (DESIGNATIONS_of options) in
   if returned : bool then ret tt
   else
     let* r := try_catch (_saveGeoJson (outputFileName options)
                      (processed (definitions options) geojson)) in
     match r with
     | inl _ => spinner Succeed (msg_wrote (outputFileName options))
     | inr err => spinner Fail (msg_error_saving (outputFileName options))
     end)
    (add_events (events_before_writing options geojson) s).
Proof.
  unfold read_options, shapeToGeojson. intros H.
  unfold bind at 1. rewrite spinner_run.
  unfold bind at 1. rewrite spinner_run.
  unfold bind at 1, try_catch at 1, _getGeoJson. rewrite H. simpl.
  unfold bind at 1. fold (definitions options). rewrite classify_run.
  unfold bind at 1.
  rewrite <- (map_map (classified (definitions options)) EFeature).
  rewrite reproject_run.
  rewrite !add_events_app.
  unfold processed, events_before_writing, DESIGNATIONS_of.
  rewrite !map_map. reflexivity.
Qed.

(** A run in which the shapefile is read and every file can be written. *)
Lemma shapeToGeojson_ok (options : Options) (geojson : Collection Feature) (s : state) :
  read_options options = inl geojson ->
  (forall d, d ∈ DESIGNATIONS_of options ->
             writable (designation_path (outputFileName options) d) = true) ->
  writable (outputFileName options +:+ ".geojson") = true ->
  shapeToGeojson options s =
  (Ok tt,
   {| trace := trace s
        ++ events_before_writing options geojson
        ++ concat (map (designation_events (outputFileName options)) (DESIGNATIONS_of options))
        ++ [WriteFile (outputFileName options +:+ ".geojson");
            Spinner Succeed (msg_wrote (outputFileName options))];
      disk := <[outputFileName options +:+ ".geojson" :=
                  json_collection (processed (definitions options) geojson)]>
                (fold_left (write_designation (outputFileName options)
                              (processed (definitions options) geojson))
                   (DESIGNATIONS_of options) (disk s)) |}).
Proof.
  intros Hread Hds Hout. rewrite (shapeToGeojson_read _ _ _ Hread).
  unfold bind at 1. rewrite forDesignations_ok by exact Hds.
  unfold bind at 1, try_catch at 1. rewrite _saveGeoJson_ok by exact Hout.
  rewrite spinner_run. unfold add_events. simpl.
  rewrite <- !app_assoc. reflexivity.
Qed.

Lemma shapeToGeojson_combined_failed (options : Options) (geojson : Collection Feature)
    (s : state) :
  read_options options = inl geojson ->
  (forall d, d ∈ DESIGNATIONS_of options ->
             writable (designation_path (outputFileName options) d) = true) ->
  writable (outputFileName options +:+ ".geojson") = false ->
  shapeToGeojson options s =
  (Ok tt,
   {| trace := trace s
        ++ events_before_writing options geojson
        ++ concat (map (designation_events (outputFileName options)) (DESIGNATIONS_of options))
        ++ [Spinner Fail (msg_error_saving (outputFileName options))];
      disk := fold_left (write_designation (outputFileName options)
                           (processed (definitions options) geojson))
                (DESIGNATIONS_of options) (disk s) |}).
Proof.
  intros Hread Hds Hout. rewrite (shapeToGeojson_read _ _ _ Hread).
  unfold bind at 1. rewrite forDesignations_ok by exact Hds.
  unfold bind at 1, try_catch at 1. rewrite _saveGeoJson_fail by exact Hout.
  rewrite spinner_run. unfold add_events. simpl.
  rewrite <- !app_assoc. reflexivity.
Qed.

Lemma shapeToGeojson_designation_failed (options : Options) (geojson : Collection Feature)
    (written : list string) (d : string) (rest : list string) (s : state) :
  read_options options = inl geojson ->
  DESIGNATIONS_of options = written ++ d :: rest ->
  (forall d', d' ∈ written ->
              writable (designation_path (outputFileName options) d') = true) ->
  writable (designation_path (outputFileName options) d) = false ->
  shapeToGeojson options s =
  (Throw (ReferenceError "outputFile"),
   {| trace := trace s
        ++ events_before_writing options geojson
        ++ concat (map (designation_events (outputFileName options)) written)
        ++ [Spinner Text (msg_processing_designation d)];
      disk := fold_left (write_designation (outputFileName options)
                           (processed (definitions options) geojson))
                written (disk s) |}).
Proof.
  intros Hread Hsplit Hds Hd. rewrite (shapeToGeojson_read _ _ _ Hread).
  unfold bind at 1. rewrite Hsplit.
  rewrite (forDesignations_fail _ _ _ _ _ _ Hds Hd).
  unfold add_events. simpl. rewrite <- !app_assoc. reflexivity.
Qed.

(** Either every element passes, or there is a first one that does not. *)
Lemma first_failure {A} (p : A -> bool) (l : list A) :
  (forall x, x ∈ l -> p x = true) \/
  exists l1 x l2, l = l1 ++ x :: l2 /\ (forall y, y ∈ l1 -> p y = true) /\ p x = false.
Proof.
  induction l as [|a l IH].
  - left. intros x Hx. apply elem_of_nil in Hx. contradiction.
  - destruct (p a) eqn:Ha.
    + destruct IH as [IH | (l1 & x & l2 & -> & H1 & H2)].
      * left. intros x Hx. apply elem_of_cons in Hx as [-> | Hx]; auto.
      * right. exists (a :: l1), x, l2. split; [reflexivity|]. split; [|exact H2].
        intros y Hy. apply elem_of_cons in Hy as [-> | Hy]; auto.
    + right. exists [], a, l. split; [reflexivity|]. split; [|exact Ha].
      intros y Hy. apply elem_of_nil in Hy. contradiction.
Qed.

Lemma shapeToGeojson_cases (options : Options) (s : state) :
  run_case options s (shapeToGeojson options s).
Proof.
  destruct (read_options options) as [geojson|cause] eqn:Hread.
  - destruct (first_failure
                (fun d => writable (designation_path (outputFileName options) d))
                (DESIGNATIONS_of options))
      as [Hall | (written & d & rest & Hsplit & Hw & Hd)].
    + destruct (writable (outputFileName options +:+ ".geojson")) eqn:Hout.
      * rewrite (shapeToGeojson_ok _ _ _ Hread Hall Hout).
        apply all_written; assumption.
      * rewrite (shapeToGeojson_combined_failed _ _ _ Hread Hall Hout).
        apply combined_failed; assumption.
    + rewrite (shapeToGeojson_designation_failed _ _ _ _ _ _ Hread Hsplit Hw Hd).
      eapply designation_failed; eassumption.
  - rewrite (shapeToGeojson_read_failed _ _ _ Hread). apply read_failed. exact Hread.
Qed.

(** ** The loader *)

Lemma get_truthy (key : string) (object : gmap string value) :
  truthy (get key object) = true -> object !! key = Some (get key object).
Proof. unfold get. destruct (object !! key); simpl; [reflexivity | discriminate]. Qed.

Lemma cleanup_lookup_LAGE (feature : Feature) :
  properties (cleanup feature) !! "LAGE" =
  Some (js_or (get "LAGE" (properties feature)) (VStr "UNKNOWN")).
Proof.
  unfold cleanup. simpl.
  rewrite lookup_insert_ne by discriminate. apply lookup_insert_eq.
Qed.

Lemma cleanup_lookup_Typ (feature : Feature) :
  properties (cleanup feature) !! "Typ" =
  Some (js_or (get "Typ" (properties feature)) (VStr "UNKNOWN")).
Proof.
  unfold cleanup. simpl. rewrite lookup_insert_eq. unfold get at 1.
  rewrite lookup_insert_ne by discriminate. reflexivity.
Qed.

Lemma cleanup_lookup_other (feature : Feature) (key : string) :
  key <> "LAGE" -> key <> "Typ" ->
  properties (cleanup feature) !! key = properties feature !! key.
Proof.
  intros H1 H2. unfold cleanup. simpl.
  rewrite !lookup_insert_ne by congruence. reflexivity.
Qed.

(** The type code the classifier reads is never falsy. *)
Lemma cleanup_Typ_truthy (feature : Feature) :
  truthy (get "Typ" (properties (cleanup feature))) = true.
Proof.
  unfold get. rewrite cleanup_lookup_Typ. simpl. apply truthy_js_or. reflexivity.
Qed.

Lemma cleanup_defaults_filled (feature : Feature) : defaults_filled feature (cleanup feature).
Proof.
  split; [reflexivity|]. split.
  - intros key [-> | ->].
    + rewrite cleanup_lookup_LAGE. split; intros H.
      * rewrite js_or_falsy by exact H. reflexivity.
      * rewrite js_or_truthy by exact H. symmetry. apply get_truthy, H.
    + rewrite cleanup_lookup_Typ. split; intros H.
      * rewrite js_or_falsy by exact H. reflexivity.
      * rewrite js_or_truthy by exact H. symmetry. apply get_truthy, H.
  - apply cleanup_lookup_other.
Qed.

(** C5. After a successful load every feature has its [LAGE] and its [Typ]
    equal to ["UNKNOWN"] where the attribute read was absent or falsy, and
    as read where it was truthy; the geometry and every other attribute are
    as read, and so are the type tag and the bounding box. *)
Theorem getGeoJson_fills_defaults (shp dbf : string) (geojson : Collection Feature)
    (s : state) :
  shapefile_read shp dbf = inl geojson ->
  exists loaded,
    _getGeoJson shp dbf s = (Ok loaded, s) /\
    gtype loaded = gtype geojson /\
    bbox loaded = bbox geojson /\
    Forall2 defaults_filled (features geojson) (features loaded).
Proof.
  intros H. unfold _getGeoJson. rewrite H. eexists. split; [reflexivity|].
  simpl. split; [reflexivity|]. split; [reflexivity|].
  induction (features geojson) as [|f l IH]; simpl; constructor.
  - apply cleanup_defaults_filled.
  - exact IH.
Qed.

(** ** What a run tells the spinner *)

Lemma diagnostics_cleanup (typesDefinitions : list TypeDefinition) (feature : Feature) :
  Forall (classification_event typesDefinitions) (diagnostics typesDefinitions (cleanup feature)).
Proof.
  unfold diagnostics. destruct typesDefinitions as [|t0 l]; [constructor|].
  set (defs := t0 :: l). set (v := get "Typ" (properties (cleanup feature))).
  assert (Hv : truthy v = true) by apply cleanup_Typ_truthy.
  rewrite Hv. pose proof (includes_as_find defs v Hv) as Hi.
  destruct (find _ defs); repeat constructor; exists v; (split; [exact Hv|]); auto.
Qed.

Lemma designation_events_stage (outputFileName d : string) :
  Forall (fun e => stage_event e = true) (designation_events outputFileName d).
Proof. repeat constructor. Qed.

Lemma events_before_writing_kinds (options : Options) (geojson : Collection Feature) :
  Forall (fun e => stage_event e = true \/ classification_event (definitions options) e)
         (events_before_writing options geojson).
Proof.
  unfold events_before_writing. apply Forall_app. split.
  - repeat constructor.
  - apply Forall_concat, Forall_forall. intros es Hes.
    apply list_elem_of_fmap in Hes as (f & -> & Hf).
    apply list_elem_of_fmap in Hf as (f0 & -> & _).
    eapply Forall_impl; [apply diagnostics_cleanup|]. intros e He. right. exact He.
Qed.

Lemma designations_events_stage (outputFileName : string) (ds : list string) :
  Forall (fun e => stage_event e = true)
         (concat (map (designation_events outputFileName) ds)).
Proof.
  apply Forall_concat, Forall_forall. intros es Hes.
  apply list_elem_of_fmap in Hes as (d & -> & _). apply designation_events_stage.
Qed.

(** Every run extends the trace by stage events and by the classification
    events of loaded features, and by nothing else. *)
Lemma shapeToGeojson_trace (options : Options) (s : state) :
  exists es,
    trace (shapeToGeojson options s).2 = trace s ++ es /\
    Forall (fun e => stage_event e = true \/ classification_event (definitions options) e) es.
Proof.
  destruct (shapeToGeojson_cases options s); eexists; (split; [reflexivity|]).
  - repeat constructor.
  - apply Forall_app. split; [apply events_before_writing_kinds|].
    apply Forall_app. split.
    + eapply Forall_impl; [apply designations_events_stage|]. intros e He. left. exact He.
    + repeat constructor.
  - apply Forall_app. split; [apply events_before_writing_kinds|].
    apply Forall_app. split.
    + eapply Forall_impl; [apply designations_events_stage|]. intros e He. left. exact He.
    + repeat constructor.
  - apply Forall_app. split; [apply events_before_writing_kinds|].
    apply Forall_app. split.
    + eapply Forall_impl; [apply designations_events_stage|]. intros e He. left. exact He.
    + repeat constructor.
Qed.

(** ** The classifier *)

Lemma not_found_not_in_diagnostics (typesDefinitions : list TypeDefinition)
    (feature : Feature) (t : value) :
  Spinner Fail (msg_type_definition_not_found t) ∉ diagnostics typesDefinitions feature.
Proof.
  unfold diagnostics. destruct typesDefinitions as [|t0 l]; [apply not_elem_of_nil|].
  destruct (truthy _); [destruct (find _ _)|];
    intros H; apply list_elem_of_singleton in H; discriminate H.
Qed.

(** C10. The branch that reports a type definition as not found is never
    taken. A truthy code that [includes] finds among the codes of the
    definitions is found by [find] among the definitions; so, with the type
    codes taken from the definitions, the callback returns a feature and
    does not report that failure, for every feature and every list of
    definitions, and no run of [shapeToGeojson] reports it. *)
Theorem type_definition_not_found_unreachable
    (typesDefinitions : list TypeDefinition) (options : Options) (s : state) :
  (forall v, truthy v = true -> includes (map type typesDefinitions) v = true ->
     is_Some (find (fun t => strict_eq (type t) v) typesDefinitions)) /\
  (forall feature, exists after es,
     classifyFeature (map type typesDefinitions) typesDefinitions feature s =
       (Ok (EFeature after), add_events es s) /\
     forall t, Spinner Fail (msg_type_definition_not_found t) ∉ es) /\
  (exists es,
     trace (shapeToGeojson options s).2 = trace s ++ es /\
     forall t, Spinner Fail (msg_type_definition_not_found t) ∉ es).
Proof.
  split; [intros v; apply includes_find|]. split.
  - intros feature. eexists _, _. split; [apply classifyFeature_run|].
    intros t. apply not_found_not_in_diagnostics.
  - destruct (shapeToGeojson_trace options s) as (es & Hes & Hall).
    exists es. split; [exact Hes|]. intros t Hin.
    rewrite Forall_forall in Hall. destruct (Hall _ Hin) as [Hstage | Hcl].
    + discriminate Hstage.
    + destruct Hcl as (v & _ & [[H _] | [H _]]); discriminate H.
Qed.

(** The branch of line 90, on the callback taken alone. When the type code
    of a feature is in the list of allowed codes and no definition has that
    code (which the lists of [shapeToGeojson] exclude), the callback
    tells the spinner that the definition was not found, naming the code,
    and returns what [spinner.fail] returned: no designation is attached,
    and the disk is as it was. *)
Theorem missing_definition_reported (TYPES : list value)
    (typesDefinitions : list TypeDefinition) (feature : Feature) (s : state) :
  truthy (get "Typ" (properties feature)) = true ->
  includes TYPES (get "Typ" (properties feature)) = true ->
  find (fun t => strict_eq (type t) (get "Typ" (properties feature))) typesDefinitions = None ->
  classifyFeature TYPES typesDefinitions feature s =
  (Ok ESpinner,
   add_events [Spinner Text (msg_valid_type (get "Typ" (properties feature)));
               Spinner Fail (msg_type_definition_not_found (get "Typ" (properties feature)))]
              s).
Proof.
  intros Hv Hin Hfind. unfold classifyFeature.
  destruct TYPES as [|t0 l]; [discriminate Hin|].
  replace (negb (length (t0 :: l) =? 0)) with true by reflexivity.
  rewrite Hv, Hin. simpl. unfold bind at 1. rewrite spinner_run. rewrite Hfind.
  unfold bind at 1. rewrite spinner_run. rewrite add_events_app. reflexivity.
Qed.

Lemma classified_designation_attached (typesDefinitions : list TypeDefinition)
    (feature : Feature) :
  designation_attached typesDefinitions (cleanup feature)
    (classified typesDefinitions (cleanup feature)).
Proof.
  unfold designation_attached, classified.
  rewrite cleanup_Typ_truthy.
  set (loaded := cleanup feature). set (v := get "Typ" (properties loaded)).
  destruct (find (fun t => strict_eq (type t) v) typesDefinitions) as [first|] eqn:E.
  - pose proof (find_some _ _ E) as [Hin Heq]. apply list_elem_of_In in Hin.
    simpl. split; [reflexivity|]. split.
    { intros key Hkey. apply lookup_insert_ne. congruence. }
    split.
    + intros td _ _. exists first. repeat split; try assumption. apply lookup_insert_eq.
    + intros Hnone. rewrite (Hnone _ Hin) in Heq. discriminate Heq.
  - split; [reflexivity|]. split; [reflexivity|]. split.
    + intros td Hin Heq. apply list_elem_of_In in Hin.
      pose proof (find_none _ _ E _ Hin) as Hno. simpl in Hno.
      rewrite Heq in Hno. discriminate Hno.
    + reflexivity.
Qed.

(** C4, with what holds for a feature that matches no code. After the
    classification pass over loaded features, a feature whose [Typ] equals
    a configured code has the designation of the first definition with that
    code, and a feature whose [Typ] equals no configured code is as it was
    loaded: its [designation] is absent when the feature read had none. *)
Theorem classification_attaches_designation (typesDefinitions : list TypeDefinition)
    (array : list Feature) (s : state) :
  exists afters es,
    mapM (classifyFeature (map type typesDefinitions) typesDefinitions)
         (map cleanup array) s
      = (Ok (map EFeature afters), add_events es s) /\
    Forall2 (designation_attached typesDefinitions) (map cleanup array) afters /\
    Forall2 (fun read after =>
               (forall td, td ∈ typesDefinitions ->
                  strict_eq (type td) (get "Typ" (properties (cleanup read))) = false) ->
               properties after !! "designation" = properties read !! "designation")
            array afters.
Proof.
  exists (map (classified typesDefinitions) (map cleanup array)).
  eexists. split; [rewrite classify_run, !map_map; reflexivity|].
  split.
  - induction array as [|f l IH]; simpl; constructor.
    + apply classified_designation_attached.
    + exact IH.
  - induction array as [|f l IH]; simpl; constructor.
    + intros Hnone.
      destruct (classified_designation_attached typesDefinitions f) as (_ & _ & _ & H).
      rewrite (H Hnone). apply cleanup_lookup_other; discriminate.
    + exact IH.
Qed.

(** C3, what the pass does instead. A feature read without a truthy [Typ]
    reaches the classifier with the code ["UNKNOWN"]; when that is not a
    configured code and the list of definitions is not empty, the callback
    warns about an unknown type, naming the code, and hands the feature on
    as loaded. *)
Theorem unset_Typ_is_warned_as_unknown (typesDefinitions : list TypeDefinition)
    (feature : Feature) (s : state) :
  typesDefinitions <> [] ->
  truthy (get "Typ" (properties feature)) = false ->
  includes (map type typesDefinitions) (VStr "UNKNOWN") = false ->
  get "Typ" (properties (cleanup feature)) = VStr "UNKNOWN" /\
  classifyFeature (map type typesDefinitions) typesDefinitions (cleanup feature) s =
  (Ok (EFeature (cleanup feature)),
   add_events [Spinner Warn (msg_unknown_type (VStr "UNKNOWN"))] s).
Proof.
  intros Hne Hfalsy Hunknown.
  assert (HTyp : get "Typ" (properties (cleanup feature)) = VStr "UNKNOWN").
  { unfold get at 1. rewrite cleanup_lookup_Typ. simpl. apply js_or_falsy, Hfalsy. }
  split; [exact HTyp|].
  rewrite classifyFeature_run. unfold classified, diagnostics. rewrite HTyp.
  rewrite (includes_as_find typesDefinitions (VStr "UNKNOWN") eq_refl) in Hunknown.
  destruct typesDefinitions as [|t0 l]; [contradiction|].
  destruct (find _ (t0 :: l)); [discriminate Hunknown | reflexivity].
Qed.

(** No run reports anything at the error level: the branch of the callback
    that does is for a falsy type code, and the loader leaves none. *)
Lemma no_error_level_event (options : Options) (s : state) :
  exists es,
    trace (shapeToGeojson options s).2 = trace s ++ es /\
    forall m, Spinner Error m ∉ es.
Proof.
  destruct (shapeToGeojson_trace options s) as (es & Hes & Hall).
  exists es. split; [exact Hes|]. intros m Hin.
  rewrite Forall_forall in Hall. destruct (Hall _ Hin) as [Hstage | Hcl].
  - discriminate Hstage.
  - destruct Hcl as (v & _ & [[H _] | [H _]]); discriminate H.
Qed.

(** ** The writer *)

Lemma writes_app (es es' : list event) : writes (es ++ es') = writes es ++ writes es'.
Proof.
  induction es as [|e es IH]; simpl; [reflexivity|].
  destruct e; simpl; rewrite IH; reflexivity.
Qed.

Lemma writes_diagnostics (typesDefinitions : list TypeDefinition) (l : list Feature) :
  writes (concat (map (diagnostics typesDefinitions) l)) = [].
Proof.
  induction l as [|f l IH]; simpl; [reflexivity|].
  rewrite writes_app, IH, app_nil_r. unfold diagnostics.
  destruct typesDefinitions; [reflexivity|].
  destruct (truthy _); [destruct (find _ _)|]; reflexivity.
Qed.

Lemma writes_events_before_writing (options : Options) (geojson : Collection Feature) :
  writes (events_before_writing options geojson) = [].
Proof. unfold events_before_writing. rewrite writes_app, writes_diagnostics. reflexivity. Qed.

Lemma writes_designation_events (outputFileName : string) (ds : list string) :
  writes (concat (map (designation_events outputFileName) ds)) =
  map (designation_path outputFileName) ds.
Proof. induction ds as [|d ds IH]; simpl; [reflexivity | rewrite IH; reflexivity]. Qed.

Lemma no_Fail_in_events_before_writing (options : Options) (geojson : Collection Feature)
    (m : message) :
  Spinner Fail m ∉ events_before_writing options geojson.
Proof.
  unfold events_before_writing. intros Hin. apply elem_of_app in Hin as [Hin | Hin].
  - apply elem_of_cons in Hin as [Hin | Hin]; [discriminate Hin|].
    apply list_elem_of_singleton in Hin. discriminate Hin.
  - apply list_elem_of_In, in_concat in Hin as (es & Hes & Hin).
    apply in_map_iff in Hes as (f & <- & _).
    unfold diagnostics in Hin. destruct (definitions options); [destruct Hin|].
    destruct (truthy _); [destruct (find _ _)|];
      destruct Hin as [Hin | []]; discriminate Hin.
Qed.

Lemma no_Fail_in_designation_events (outputFileName : string) (ds : list string) (m : message) :
  Spinner Fail m ∉ concat (map (designation_events outputFileName) ds).
Proof.
  intros Hin. apply list_elem_of_In, in_concat in Hin as (es & Hes & Hin).
  apply in_map_iff in Hes as (d & <- & _).
  destruct Hin as [Hin | [Hin | [Hin | []]]]; discriminate Hin.
Qed.

(** What is on the disk after the files of some designations were written:
    the file of each of them, and what was there before at other paths. *)
Lemma lookup_written_other (outputFileName : string) (geojson : Collection Feature)
    (ds : list string) (files : gmap string (Collection Feature)) (path : string) :
  (forall d, d ∈ ds -> path <> designation_path outputFileName d) ->
  fold_left (write_designation outputFileName geojson) ds files !! path = files !! path.
Proof.
  revert files. induction ds as [|d0 ds IH]; intros files H; simpl; [reflexivity|].
  rewrite IH by (intros d Hd; apply H, elem_of_cons; right; exact Hd).
  unfold write_designation. apply lookup_insert_ne.
  intros Heq. apply (H d0); [apply elem_of_cons; left; reflexivity | symmetry; exact Heq].
Qed.

Lemma lookup_written (outputFileName : string) (geojson : Collection Feature)
    (ds : list string) (files : gmap string (Collection Feature)) (d : string) :
  d ∈ ds ->
  fold_left (write_designation outputFileName geojson) ds files
    !! designation_path outputFileName d
  = Some (designation_file geojson d).
Proof.
  revert files. induction ds as [|d0 ds IH]; intros files Hd; simpl.
  - apply elem_of_nil in Hd. contradiction.
  - destruct (decide (d ∈ ds)) as [Hin | Hout]; [apply IH, Hin|].
    apply elem_of_cons in Hd as [-> | Hd]; [|contradiction].
    rewrite lookup_written_other.
    + unfold write_designation. apply lookup_insert_eq.
    + intros d Hd Heq. apply designation_path_inj in Heq. subst. contradiction.
Qed.

(** The file of a designation holds the features of the combined file that
    have this designation, with its type tag and its bounding box. *)
Lemma designation_file_filtered (geojson : Collection Feature) (d : string) :
  designation_file geojson d =
  {| gtype := gtype (json_collection geojson);
     features := List.filter (has_designation d) (features (json_collection geojson));
     bbox := bbox (json_collection geojson) |}.
Proof.
  unfold designation_file, json_collection. simpl. f_equal.
  induction (features geojson) as [|f l IH]; simpl; [reflexivity|].
  destruct (has_designation d (json_feature f)); simpl.
  - rewrite json_feature_idem, IH. reflexivity.
  - exact IH.
Qed.

Lemma succeeded_all_written (options : Options) (s : state) :
  succeeded options s ->
  exists geojson,
    read_options options = inl geojson /\
    (forall d, d ∈ DESIGNATIONS_of options ->
               writable (designation_path (outputFileName options) d) = true) /\
    writable (outputFileName options +:+ ".geojson") = true.
Proof.
  unfold succeeded. destruct (shapeToGeojson_cases options s) as
    [cause Hread | geojson written d rest Hread Hsplit Hw Hd
     | geojson Hread Hall Hout | geojson Hread Hall Hout]; cbn [snd trace add_events].
  - change [Spinner Start msg_shapeToGeojson;
            Spinner Text (msg_reading (inputFileName options));
            Spinner Fail (msg_error_reading (ParseError cause))]
      with ([Spinner Start msg_shapeToGeojson;
             Spinner Text (msg_reading (inputFileName options))]
            ++ [Spinner Fail (msg_error_reading (ParseError cause))]).
    rewrite !app_assoc, last_snoc. discriminate.
  - rewrite !app_assoc, last_snoc. discriminate.
  - rewrite !app_assoc, last_snoc. discriminate.
  - intros _. exists geojson. auto.
Qed.

Lemma NoDup_output_paths (options : Options) : NoDup (output_paths options).
Proof.
  unfold output_paths. apply NoDup_app. split; [|split].
  - apply NoDup_fmap_2; [|apply NoDup_new_Set].
    intros d d' H. apply (designation_path_inj _ _ _ H).
  - intros p Hp Hp'. apply list_elem_of_singleton in Hp'. subst.
    apply list_elem_of_fmap in Hp as (d & Hd & _).
    symmetry in Hd. apply designation_path_combined in Hd. exact Hd.
  - apply NoDup_singleton.
Qed.

Lemma length_output_paths (options : Options) :
  length (output_paths options) =
  size (list_to_set (map designation (definitions options)) : gset string) + 1.
Proof.
  unfold output_paths, DESIGNATIONS_of.
  rewrite length_app, length_map, length_new_Set. reflexivity.
Qed.

(** The files on the disk after a run that succeeds. *)
Lemma succeeded_disk (options : Options) (s : state) :
  succeeded options s ->
  exists geojson,
    read_options options = inl geojson /\
    (forall d, d ∈ map designation (definitions options) ->
       disk (shapeToGeojson options s).2 !! designation_path (outputFileName options) d =
       Some {| gtype := gtype (json_collection (processed (definitions options) geojson));
               features := List.filter (has_designation d)
                             (features (json_collection (processed (definitions options) geojson)));
               bbox := bbox (json_collection (processed (definitions options) geojson)) |}) /\
    disk (shapeToGeojson options s).2 !! (outputFileName options +:+ ".geojson") =
      Some (json_collection (processed (definitions options) geojson)).
Proof.
  intros Hs. destruct (succeeded_all_written _ _ Hs) as (geojson & Hread & Hall & Hout).
  exists geojson. split; [exact Hread|].
  rewrite (shapeToGeojson_ok _ _ _ Hread Hall Hout). cbn [snd disk]. split.
  - intros d Hd. rewrite lookup_insert_ne by (apply not_eq_sym, designation_path_combined).
    rewrite lookup_written by (apply elem_of_new_Set, Hd).
    rewrite designation_file_filtered. reflexivity.
  - apply lookup_insert_eq.
Qed.

Lemma has_designation_lookup (d : string) (f : Feature) :
  has_designation d f = true <-> properties f !! "designation" = Some (VStr d).
Proof.
  unfold has_designation. rewrite strict_eq_VStr. unfold get.
  destruct (properties f !! "designation") as [v|]; simpl; split; congruence.
Qed.

Lemma selected_filter {A} (p : A -> bool) (P : A -> Prop) (l : list A) :
  (forall x, p x = true <-> P x) -> selected P l (List.filter p l).
Proof.
  intros Hp. induction l as [|x l IH]; simpl; [constructor|].
  destruct (p x) eqn:E.
  - apply selected_keep; [apply Hp, E | exact IH].
  - apply selected_drop; [|exact IH]. intros HP. apply Hp in HP. congruence.
Qed.

Lemma designation_path_flat (outputFileName d : string) :
  designation_path outputFileName d = outputFileName +:+ "_" +:+ d +:+ ".geojson".
Proof. unfold designation_path. rewrite !string_app_assoc. reflexivity. Qed.

Lemma elem_of_output_paths (options : Options) (path : string) :
  path ∈ output_paths options <->
  path = outputFileName options +:+ ".geojson" \/
  exists td, td ∈ definitions options /\
    path = outputFileName options +:+ "_" +:+ designation td +:+ ".geojson".
Proof.
  unfold output_paths, DESIGNATIONS_of.
  rewrite elem_of_app, list_elem_of_singleton, list_elem_of_fmap. split.
  - intros [(d & -> & Hd) | ->]; [right | left; reflexivity].
    apply elem_of_new_Set, list_elem_of_fmap in Hd as (td & -> & Htd).
    exists td. split; [exact Htd | apply designation_path_flat].
  - intros [-> | (td & Htd & ->)]; [right; reflexivity | left].
    exists (designation td). split; [symmetry; apply designation_path_flat|].
    apply elem_of_new_Set, list_elem_of_fmap. exists td. split; [reflexivity | exact Htd].
Qed.

(** The loader, the classifier and the reprojection together write what is
    expected of a feature. *)
Lemma written_feature_processed (typesDefinitions : list TypeDefinition) (read : Feature) :
  written_feature typesDefinitions read
    (json_feature (reprojected (classified typesDefinitions (cleanup read)))).
Proof.
  assert (HTyp : get "Typ" (properties (cleanup read)) =
                 js_or (get "Typ" (properties read)) (VStr "UNKNOWN")).
  { unfold get at 1. rewrite cleanup_lookup_Typ. reflexivity. }
  split.
  - assert (Hg : geometry (classified typesDefinitions (cleanup read)) = geometry read).
    { unfold classified. destruct (truthy _); [destruct (find _ _)|]; reflexivity. }
    unfold json_feature, reprojected. cbn [geometry coordinates].
    rewrite Hg, map_map. apply map_ext. intros position. reflexivity.
  - intros key. unfold json_feature, reprojected. cbn [properties].
    rewrite lookup_omap. f_equal.
    unfold classified, expected_property, configured_designation.
    rewrite cleanup_Typ_truthy, HTyp.
    destruct (String.eqb key "designation") eqn:Ed.
    + apply String.eqb_eq in Ed. subst key.
      destruct (find _ typesDefinitions) as [td|]; cbn [fmap option_fmap option_map properties].
      * apply lookup_insert_eq.
      * apply cleanup_lookup_other; discriminate.
    + apply String.eqb_neq in Ed.
      assert (Hprops : properties
                (match find (fun t => strict_eq (type t)
                                        (js_or (get "Typ" (properties read)) (VStr "UNKNOWN")))
                        typesDefinitions with
                 | Some typeDefinition =>
                     {| geometry := geometry (cleanup read);
                        properties := <["designation" := VStr (designation typeDefinition)]>
                                        (properties (cleanup read)) |}
                 | None => cleanup read
                 end) !! key = properties (cleanup read) !! key).
      { destruct (find _ typesDefinitions); cbn [properties]; [|reflexivity].
        apply lookup_insert_ne. congruence. }
      rewrite Hprops.
      destruct (String.eqb key "LAGE") eqn:El.
      { apply String.eqb_eq in El. subst key. apply cleanup_lookup_LAGE. }
      apply String.eqb_neq in El.
      destruct (String.eqb key "Typ") eqn:Et.
      { apply String.eqb_eq in Et. subst key. apply cleanup_lookup_Typ. }
      apply String.eqb_neq in Et. apply cleanup_lookup_other; assumption.
Qed.

(** C8. A run that succeeds has read the shapefile and written N+1 files,
    each once, N the number of distinct designations of the definitions:
    [<outputFileName>.geojson] and [<outputFileName>_<designation>.geojson]
    for every designation of a definition, and no other. The combined file
    holds the type tag read, the bounding box with its corners reprojected
    as lines 113-118 have them, and, for each feature read and in that
    order, the feature with its positions reprojected and its properties
    after the loader and the classifier. The file of a designation holds
    the type tag and the bounding box of the combined file and, of its
    features, those whose [designation] is this designation, in that order.
    No other path of the disk has changed. *)
Theorem successful_run_writes_all_files (options : Options) (s : state) :
  succeeded options s ->
  exists geojson combined written,
    read_options options = inl geojson /\
    shapeToGeojson options s = (Ok tt, (shapeToGeojson options s).2) /\
    writes (trace (shapeToGeojson options s).2) = writes (trace s) ++ written /\
    NoDup written /\
    length written =
      size (list_to_set (map designation (definitions options)) : gset string) + 1 /\
    (forall path, path ∈ written <->
       path = outputFileName options +:+ ".geojson" \/
       exists td, td ∈ definitions options /\
         path = outputFileName options +:+ "_" +:+ designation td +:+ ".geojson") /\
    disk (shapeToGeojson options s).2 !! (outputFileName options +:+ ".geojson")
      = Some combined /\
    gtype combined = default VUndefined (json_prop (gtype geojson)) /\
    bbox combined =
      map json_elem
        [ VNum (latitude (toWGS (index (bbox geojson) 0) (index (bbox geojson) 1)));
          VNum (longitude (toWGS (index (bbox geojson) 0) (index (bbox geojson) 1)));
          VNum (latitude (toWGS (index (bbox geojson) 2) (index (bbox geojson) 3)));
          VNum (longitude (toWGS (index (bbox geojson) 2) (index (bbox geojson) 3))) ] /\
    Forall2 (written_feature (definitions options)) (features geojson) (features combined) /\
    (forall td, td ∈ definitions options ->
       exists file,
         disk (shapeToGeojson options s).2
           !! (outputFileName options +:+ "_" +:+ designation td +:+ ".geojson") = Some file /\
         gtype file = gtype combined /\
         bbox file = bbox combined /\
         selected (fun f => properties f !! "designation" = Some (VStr (designation td)))
                  (features combined) (features file)) /\
    (forall path, path ∉ written ->
       disk (shapeToGeojson options s).2 !! path = disk s !! path).
Proof.
  intros Hs. destruct (succeeded_all_written _ _ Hs) as (geojson & Hread & Hall & Hout).
  exists geojson, (json_collection (processed (definitions options) geojson)),
         (output_paths options).
  split; [exact Hread|].
  rewrite (shapeToGeojson_ok _ _ _ Hread Hall Hout). cbn [snd trace disk].
  split; [reflexivity|]. split.
  { rewrite !writes_app, writes_events_before_writing, writes_designation_events.
    reflexivity. }
  split; [apply NoDup_output_paths|]. split; [apply length_output_paths|].
  split; [apply elem_of_output_paths|].
  split; [apply lookup_insert_eq|]. split; [reflexivity|]. split; [reflexivity|].
  split.
  { unfold json_collection, processed. cbn [features]. rewrite map_map.
    induction (features geojson) as [|f l IH]; cbn [map]; constructor; [|exact IH].
    apply written_feature_processed. }
  split.
  { intros td Htd. rewrite <- designation_path_flat.
    rewrite lookup_insert_ne by (apply not_eq_sym, designation_path_combined).
    assert (Hd : designation td ∈ DESIGNATIONS_of options).
    { apply elem_of_new_Set, list_elem_of_fmap. exists td. split; [reflexivity | exact Htd]. }
    rewrite lookup_written by exact Hd. rewrite designation_file_filtered.
    eexists. split; [reflexivity|]. cbn [gtype bbox features].
    split; [reflexivity|]. split; [reflexivity|].
    apply selected_filter. intros f. apply has_designation_lookup. }
  intros path Hpath. unfold output_paths in Hpath.
  rewrite lookup_insert_ne.
  - apply lookup_written_other. intros d Hd Heq. apply Hpath, elem_of_app. left.
    apply list_elem_of_fmap. exists d. split; [exact Heq | exact Hd].
  - intros Heq. apply Hpath, elem_of_app. right. apply list_elem_of_singleton.
    symmetry. exact Heq.
Qed.

(** C7. Without definitions the classification pass hands every feature on
    as it is and tells the spinner nothing; a run writes the combined file
    and no other, or no file at all when the shapefile cannot be read or the
    combined file cannot be written. *)
Theorem no_definitions_only_combined_file (options : Options) (s : state) :
  definitions options = [] ->
  (forall array s',
     mapM (classifyFeature (map type (definitions options)) (definitions options)) array s'
     = (Ok (map EFeature array), s')) /\
  DESIGNATIONS_of options = [] /\
  match read_options options with
  | inl geojson =>
      if writable (outputFileName options +:+ ".geojson") then
        writes (trace (shapeToGeojson options s).2) =
          writes (trace s) ++ [outputFileName options +:+ ".geojson"] /\
        disk (shapeToGeojson options s).2 =
          <[outputFileName options +:+ ".geojson" :=
              json_collection
                {| gtype := gtype geojson;
                   features := map (fun f => reprojected (cleanup f)) (features geojson);
                   bbox := reprojectBbox (bbox geojson) |}]> (disk s)
      else
        writes (trace (shapeToGeojson options s).2) = writes (trace s) /\
        disk (shapeToGeojson options s).2 = disk s
  | inr _ =>
      writes (trace (shapeToGeojson options s).2) = writes (trace s) /\
      disk (shapeToGeojson options s).2 = disk s
  end.
Proof.
  intros Hdefs.
  assert (HDS : DESIGNATIONS_of options = []).
  { unfold DESIGNATIONS_of. rewrite Hdefs. reflexivity. }
  assert (Hnone : forall d, d ∈ DESIGNATIONS_of options ->
            writable (designation_path (outputFileName options) d) = true).
  { rewrite HDS. intros d Hd. apply elem_of_nil in Hd. contradiction. }
  split.
  { rewrite Hdefs. intros array s'.
    rewrite (mapM_run (classifyFeature [] []) EFeature (fun _ => [])).
    - f_equal. induction array as [|f l IH]; simpl;
        [apply add_events_nil | exact IH].
    - intros f s'' _. simpl. rewrite add_events_nil. reflexivity. }
  split; [exact HDS|].
  assert (Hprocessed : forall geojson,
            processed (definitions options) geojson =
            {| gtype := gtype geojson;
               features := map (fun f => reprojected (cleanup f)) (features geojson);
               bbox := reprojectBbox (bbox geojson) |}).
  { intros geojson. unfold processed. rewrite Hdefs. f_equal.
    apply map_ext. intros f. unfold classified.
    destruct (truthy _); reflexivity. }
  destruct (read_options options) as [geojson|cause] eqn:Hread.
  - destruct (writable (outputFileName options +:+ ".geojson")) eqn:Hout.
    + rewrite (shapeToGeojson_ok _ _ _ Hread Hnone Hout). cbn [snd trace disk].
      rewrite HDS, Hprocessed. split; [|reflexivity].
      rewrite !writes_app, writes_events_before_writing. reflexivity.
    + rewrite (shapeToGeojson_combined_failed _ _ _ Hread Hnone Hout). cbn [snd trace disk].
      rewrite HDS. split; [|reflexivity].
      rewrite !writes_app, writes_events_before_writing. simpl. apply app_nil_r.
  - rewrite (shapeToGeojson_read_failed _ _ _ Hread). unfold add_events. cbn [snd trace disk].
    split; [|reflexivity]. rewrite writes_app. simpl. apply app_nil_r.
Qed.

(** The designation of a feature of the combined file: that of a
    definition, or what the feature read had. *)
Lemma processed_designation (typesDefinitions : list TypeDefinition) (read : Feature) :
  (exists td, td ∈ typesDefinitions /\
     properties (json_feature (reprojected (classified typesDefinitions (cleanup read))))
       !! "designation" = Some (VStr (designation td))) \/
  properties (json_feature (reprojected (classified typesDefinitions (cleanup read))))
    !! "designation" = properties read !! "designation" ≫= json_prop.
Proof.
  unfold json_feature, reprojected. cbn [properties]. rewrite lookup_omap.
  unfold classified. rewrite cleanup_Typ_truthy.
  destruct (find _ typesDefinitions) as [td|] eqn:E.
  - left. exists td. apply find_some in E as [Hin _]. apply list_elem_of_In in Hin.
    split; [exact Hin|]. cbn [properties]. rewrite lookup_insert_eq. reflexivity.
  - right. rewrite cleanup_lookup_other by discriminate. reflexivity.
Qed.

(** C6, for a shapefile without an attribute [designation]. After a run
    that succeeds, the features of the files of the designations are those
    of the combined file that have a [designation], and no feature is in
    the files of two designations. *)
Theorem partition_complete_without_read_designation (options : Options) (s : state) :
  succeeded options s ->
  (forall geojson f,
     read_options options = inl geojson -> f ∈ features geojson ->
     properties f !! "designation" = None) ->
  partition_complete options (disk (shapeToGeojson options s).2).
Proof.
  intros Hs Hnone.
  destruct (succeeded_disk _ _ Hs) as (geojson & Hread & Hfiles & Hcombined).
  set (final := json_collection (processed (definitions options) geojson)) in *.
  assert (HDS : forall d, d ∈ DESIGNATIONS_of options <->
                          d ∈ map designation (definitions options)).
  { intros d. apply elem_of_new_Set. }
  exists final. split; [exact Hcombined|]. split.
  - intros f. split.
    + intros (d & file & Hd & Hfile & Hf).
      rewrite Hfiles in Hfile by (apply HDS, Hd). inversion Hfile; subst file. clear Hfile.
      cbn [features] in Hf. apply list_elem_of_In, filter_In in Hf as [Hf Hhas].
      split; [apply list_elem_of_In, Hf|].
      apply has_designation_lookup in Hhas. rewrite Hhas. eexists. reflexivity.
    + intros [Hf [v Hv]].
      assert (Hf' := Hf). unfold final, json_collection, processed in Hf'. cbn [features] in Hf'.
      rewrite map_map in Hf'. apply list_elem_of_fmap in Hf' as (read & -> & Hread_in).
      destruct (processed_designation (definitions options) read) as [(td & Htd & Hdes) | Hdes].
      * exists (designation td). eexists. split.
        { apply HDS, list_elem_of_fmap. exists td. split; [reflexivity | exact Htd]. }
        split.
        { apply Hfiles, list_elem_of_fmap. exists td. split; [reflexivity | exact Htd]. }
        cbn [features]. apply list_elem_of_In, filter_In. split.
        { apply list_elem_of_In, Hf. }
        apply has_designation_lookup, Hdes.
      * rewrite Hdes, (Hnone _ _ Hread Hread_in) in Hv. discriminate Hv.
  - intros d d' file file' f Hd Hd' Hfile Hfile' Hf Hf'.
    rewrite Hfiles in Hfile by (apply HDS, Hd). inversion Hfile; subst file.
    rewrite Hfiles in Hfile' by (apply HDS, Hd'). inversion Hfile'; subst file'.
    cbn [features] in Hf, Hf'.
    apply list_elem_of_In, filter_In in Hf as [_ Hhas].
    apply list_elem_of_In, filter_In in Hf' as [_ Hhas'].
    apply has_designation_lookup in Hhas. apply has_designation_lookup in Hhas'.
    congruence.
Qed.

(** C9, what the run does when the file of a designation cannot be
    written. The run ends with the [ReferenceError] thrown in the [catch]
    block: [spinner.fail] is not called, no later file is written, the
    combined file neither, and the files written before are on the disk. *)
Theorem designation_write_failure_throws (options : Options) (geojson : Collection Feature)
    (written : list string) (d : string) (rest : list string) (s : state) :
  read_options options = inl geojson ->
  DESIGNATIONS_of options = written ++ d :: rest ->
  (forall d', d' ∈ written ->
              writable (designation_path (outputFileName options) d') = true) ->
  writable (designation_path (outputFileName options) d) = false ->
  (shapeToGeojson options s).1 = Throw (ReferenceError "outputFile") /\
  (exists es,
     trace (shapeToGeojson options s).2 = trace s ++ es /\
     (forall m, Spinner Fail m ∉ es) /\
     writes es = map (designation_path (outputFileName options)) written) /\
  (forall d', d' ∈ written ->
     disk (shapeToGeojson options s).2 !! designation_path (outputFileName options) d' =
     Some (designation_file (processed (definitions options) geojson) d')) /\
  (forall path,
     (forall d', d' ∈ written -> path <> designation_path (outputFileName options) d') ->
     disk (shapeToGeojson options s).2 !! path = disk s !! path).
Proof.
  intros Hread Hsplit Hw Hd.
  rewrite (shapeToGeojson_designation_failed _ _ _ _ _ _ Hread Hsplit Hw Hd).
  cbn [fst snd trace disk]. split; [reflexivity|]. split.
  { eexists. split; [reflexivity|]. split.
    - intros m Hin. apply elem_of_app in Hin as [Hin | Hin].
      + exact (no_Fail_in_events_before_writing _ _ _ Hin).
      + apply elem_of_app in Hin as [Hin | Hin].
        * exact (no_Fail_in_designation_events _ _ _ Hin).
        * apply list_elem_of_singleton in Hin. discriminate Hin.
    - rewrite !writes_app, writes_events_before_writing, writes_designation_events.
      simpl. apply app_nil_r. }
  split.
  - intros d' Hd'. apply lookup_written, Hd'.
  - intros path Hpath. apply lookup_written_other, Hpath.
Qed.

(** ** The reprojection *)

(** C1, as the code has it. The reprojection pass replaces every coordinate
    pair of a feature by the longitude followed by the latitude of its
    image and leaves the properties alone; each corner of the bounding box
    is replaced by the latitude followed by the longitude of its image. *)
Theorem reprojection_order (feature : Feature) (x0 y0 x1 y1 : value) (s : state) :
  (exists after,
     reprojectFeature (EFeature feature) s = (Ok after, s) /\
     properties after = properties feature /\
     Forall2 (fun before pair =>
                pair = [VNum (longitude (toWGS (index before 0) (index before 1)));
                        VNum (latitude (toWGS (index before 0) (index before 1)))])
             (coordinates (geometry feature)) (coordinates (geometry after))) /\
  reprojectBbox [x0; y0; x1; y1] =
    [VNum (latitude (toWGS x0 y0)); VNum (longitude (toWGS x0 y0));
     VNum (latitude (toWGS x1 y1)); VNum (longitude (toWGS x1 y1))].
Proof.
  split; [|reflexivity].
  eexists. split; [reflexivity|]. split; [reflexivity|]. cbn [geometry coordinates].
  induction (coordinates (geometry feature)) as [|c l IH]; simpl; constructor.
  - reflexivity.
  - exact IH.
Qed.

(** ** More on the outcome of a run *)

(** X1. When the shapefile cannot be read, the run tells the spinner that
    reading failed, with the error of [_getGeoJson] that wraps the cause,
    and returns: no feature is classified, nothing is written and the disk
    is as it was. *)
Theorem read_failure_reported (options : Options) (cause : string) (s : state) :
  read_options options = inr cause ->
  (shapeToGeojson options s).1 = Ok tt /\
  trace (shapeToGeojson options s).2 =
    trace s ++ [Spinner Start msg_shapeToGeojson;
                Spinner Text (msg_reading (inputFileName options));
                Spinner Fail (msg_error_reading (ParseError cause))] /\
  disk (shapeToGeojson options s).2 = disk s.
Proof.
  intros Hread. rewrite (shapeToGeojson_read_failed _ _ _ Hread).
  repeat split; reflexivity.
Qed.

Lemma no_Succeed_before_last (options : Options) (geojson : Collection Feature)
    (ds : list string) (m : message) :
  Spinner Succeed m ∉ events_before_writing options geojson
                        ++ concat (map (designation_events (outputFileName options)) ds).
Proof.
  intros Hin.
  pose proof (events_before_writing_kinds options geojson) as H1.
  rewrite Forall_forall in H1.
  apply elem_of_app in Hin as [Hin | Hin].
  - destruct (H1 _ Hin) as [Hst | (v & _ & [[H _] | [H _]])];
      [|discriminate H | discriminate H].
    unfold events_before_writing in Hin. apply elem_of_app in Hin as [Hin | Hin].
    + apply elem_of_cons in Hin as [Hin | Hin]; [discriminate Hin|].
      apply list_elem_of_singleton in Hin. discriminate Hin.
    + apply list_elem_of_In, in_concat in Hin as (l & Hl & Hin).
      apply in_map_iff in Hl as (f & <- & _).
      unfold diagnostics in Hin. destruct (definitions options); [destruct Hin|].
      destruct (truthy _); [destruct (find _ _)|];
        destruct Hin as [Hin | []]; discriminate Hin.
  - apply list_elem_of_In, in_concat in Hin as (l & Hl & Hin).
    apply in_map_iff in Hl as (d & <- & _).
    destruct Hin as [Hin | [Hin | [Hin | []]]]; discriminate Hin.
Qed.

(** X2. A run whose last act is the [spinner.fail] that names
    [outputFileName] has read the shapefile, has written the file of every
    designation and could not write the combined file. It returns without
    throwing, [spinner.succeed] and [spinner.fail] were not called before,
    and the file of every designation is on the disk. *)
Theorem combined_write_failure_reported (options : Options) (s : state) :
  combined_write_failed options s ->
  (shapeToGeojson options s).1 = Ok tt /\
  (exists geojson, read_options options = inl geojson) /\
  writable (outputFileName options +:+ ".geojson") = false /\
  (exists es,
     trace (shapeToGeojson options s).2 =
       trace s ++ es ++ [Spinner Fail (msg_error_saving (outputFileName options))] /\
     (forall m, Spinner Succeed m ∉ es) /\
     (forall m, Spinner Fail m ∉ es) /\
     forall path, path ∈ writes es <->
       exists td, td ∈ definitions options /\
         path = outputFileName options +:+ "_" +:+ designation td +:+ ".geojson") /\
  (forall td, td ∈ definitions options ->
     writable (outputFileName options +:+ "_" +:+ designation td +:+ ".geojson") = true /\
     is_Some (disk (shapeToGeojson options s).2
                !! (outputFileName options +:+ "_" +:+ designation td +:+ ".geojson"))).
Proof.
  unfold combined_write_failed.
  destruct (shapeToGeojson_cases options s) as
    [cause Hread | geojson written d rest Hread Hsplit Hw Hd
     | geojson Hread Hall Hout | geojson Hread Hall Hout]; cbn [fst snd trace disk add_events].
  - change [Spinner Start msg_shapeToGeojson;
            Spinner Text (msg_reading (inputFileName options));
            Spinner Fail (msg_error_reading (ParseError cause))]
      with ([Spinner Start msg_shapeToGeojson;
             Spinner Text (msg_reading (inputFileName options))]
            ++ [Spinner Fail (msg_error_reading (ParseError cause))]).
    rewrite !app_assoc, last_snoc. discriminate.
  - rewrite !app_assoc, last_snoc. discriminate.
  - intros _. split; [reflexivity|]. split; [exists geojson; exact Hread|].
    split; [exact Hout|]. split.
    + exists (events_before_writing options geojson
              ++ concat (map (designation_events (outputFileName options))
                           (DESIGNATIONS_of options))).
      split; [rewrite <- !app_assoc; reflexivity|].
      split; [intros m; apply no_Succeed_before_last|]. split.
      * intros m Hin. apply elem_of_app in Hin as [Hin | Hin].
        { exact (no_Fail_in_events_before_writing _ _ _ Hin). }
        { exact (no_Fail_in_designation_events _ _ _ Hin). }
      * intros path.
        rewrite writes_app, writes_events_before_writing, writes_designation_events.
        cbn [app]. rewrite list_elem_of_fmap. split.
        { intros (d & -> & Hd).
          apply elem_of_new_Set, list_elem_of_fmap in Hd as (td & -> & Htd).
          exists td. split; [exact Htd | apply designation_path_flat]. }
        { intros (td & Htd & ->). exists (designation td).
          split; [symmetry; apply designation_path_flat|].
          apply elem_of_new_Set, list_elem_of_fmap. exists td.
          split; [reflexivity | exact Htd]. }
    + intros td Htd.
      assert (Hd : designation td ∈ DESIGNATIONS_of options).
      { apply elem_of_new_Set, list_elem_of_fmap. exists td.
        split; [reflexivity | exact Htd]. }
      rewrite <- designation_path_flat. split; [apply Hall, Hd|].
      rewrite lookup_written by exact Hd. eexists. reflexivity.
  - change [WriteFile (outputFileName options +:+ ".geojson");
            Spinner Succeed (msg_wrote (outputFileName options))]
      with ([WriteFile (outputFileName options +:+ ".geojson")]
            ++ [Spinner Succeed (msg_wrote (outputFileName options))]).
    rewrite !app_assoc, last_snoc. discriminate.
Qed.

(** X3. A run that succeeds has read the shapefile and found every output
    path writable, the combined file and the file of every designation of
    a definition; it returns without throwing, [spinner.succeed] is its
    last act and was not called before, and [spinner.fail] was not called
    at all. *)
Theorem succeeded_only_when_all_written (options : Options) (s : state) :
  succeeded options s ->
  (shapeToGeojson options s).1 = Ok tt /\
  (exists geojson, read_options options = inl geojson) /\
  writable (outputFileName options +:+ ".geojson") = true /\
  (forall td, td ∈ definitions options ->
     writable (outputFileName options +:+ "_" +:+ designation td +:+ ".geojson") = true) /\
  exists es,
    trace (shapeToGeojson options s).2 =
      trace s ++ es ++ [Spinner Succeed (msg_wrote (outputFileName options))] /\
    (forall m, Spinner Succeed m ∉ es) /\
    (forall m, Spinner Fail m ∉ es).
Proof.
  intros Hs. destruct (succeeded_all_written _ _ Hs) as (geojson & Hread & Hall & Hout).
  rewrite (shapeToGeojson_ok _ _ _ Hread Hall Hout). cbn [fst snd trace].
  split; [reflexivity|]. split; [exists geojson; exact Hread|]. split; [exact Hout|].
  split.
  { intros td Htd. rewrite <- designation_path_flat. apply Hall.
    apply elem_of_new_Set, list_elem_of_fmap. exists td. split; [reflexivity | exact Htd]. }
  exists ((events_before_writing options geojson
           ++ concat (map (designation_events (outputFileName options))
                        (DESIGNATIONS_of options)))
          ++ [WriteFile (outputFileName options +:+ ".geojson")]).
  split; [rewrite <- !app_assoc; reflexivity|]. split.
  - intros m Hin. apply elem_of_app in Hin as [Hin | Hin].
    + exact (no_Succeed_before_last _ _ _ _ Hin).
    + apply list_elem_of_singleton in Hin. discriminate Hin.
  - intros m Hin. apply elem_of_app in Hin as [Hin | Hin].
    + apply elem_of_app in Hin as [Hin | Hin].
      * exact (no_Fail_in_events_before_writing _ _ _ Hin).
      * exact (no_Fail_in_designation_events _ _ _ Hin).
    + apply list_elem_of_singleton in Hin. discriminate Hin.
Qed.

(** X4. The error of reading the shapefile and the error of writing a file
    never leave [shapeToGeojson]: both are caught inside, so no run ends by
    throwing either of them. *)
Theorem io_errors_never_escape (options : Options) (s : state) (e : exn) :
  (shapeToGeojson options s).1 = Throw e ->
  (forall cause, e <> ParseError cause) /\ (forall path, e <> WriteError path).
Proof.
  destruct (shapeToGeojson_cases options s); cbn [fst]; intros He;
    inversion He; split; intros x; discriminate.
Qed.

(** X5. In every run the paths written are a beginning of [output_paths],
    in that order: the files of the designations in the order of
    [DESIGNATIONS], then the combined file. Every path written holds a file
    afterwards and no other path of the disk changes. *)
Theorem writes_prefix_of_output_paths (options : Options) (s : state) :
  exists es,
    trace (shapeToGeojson options s).2 = trace s ++ es /\
    writes es `prefix_of` output_paths options /\
    (forall path, path ∈ writes es -> is_Some (disk (shapeToGeojson options s).2 !! path)) /\
    (forall path, path ∉ writes es ->
       disk (shapeToGeojson options s).2 !! path = disk s !! path).
Proof.
  assert (Hsome : forall out g ds files path,
            path ∈ map (designation_path out) ds ->
            is_Some (fold_left (write_designation out g) ds files !! path)).
  { intros out g ds files path Hpath. apply list_elem_of_fmap in Hpath as (d & -> & Hd).
    rewrite lookup_written by exact Hd. eexists. reflexivity. }
  assert (Hother : forall out g ds files path,
            path ∉ map (designation_path out) ds ->
            fold_left (write_designation out g) ds files !! path = files !! path).
  { intros out g ds files path Hpath. apply lookup_written_other.
    intros d Hd Heq. apply Hpath, list_elem_of_fmap. exists d. split; assumption. }
  destruct (shapeToGeojson_cases options s) as
    [cause Hread | geojson written d rest Hread Hsplit Hw Hd
     | geojson Hread Hall Hout | geojson Hread Hall Hout];
    eexists; (split; [reflexivity|]); cbn [snd disk add_events].
  - split; [apply prefix_nil|]. split; [|reflexivity].
    intros path Hpath. apply elem_of_nil in Hpath. contradiction.
  - rewrite !writes_app, writes_events_before_writing, writes_designation_events.
    cbn [writes app]. rewrite app_nil_r. split; [|split].
    + unfold output_paths. rewrite Hsplit, fmap_app, <- app_assoc.
      eexists. reflexivity.
    + apply Hsome.
    + apply Hother.
  - rewrite !writes_app, writes_events_before_writing, writes_designation_events.
    cbn [writes app]. rewrite app_nil_r. split; [|split].
    + unfold output_paths. eexists. reflexivity.
    + apply Hsome.
    + apply Hother.
  - rewrite !writes_app, writes_events_before_writing, writes_designation_events.
    cbn [writes app]. fold (output_paths options). split; [|split].
    + reflexivity.
    + intros path Hpath. unfold output_paths in Hpath.
      apply elem_of_app in Hpath as [Hpath | Hpath].
      * rewrite lookup_insert_ne.
        { apply Hsome, Hpath. }
        intros Heq. subst path. apply list_elem_of_fmap in Hpath as (d & Hd & _).
        symmetry in Hd. exact (designation_path_combined _ _ Hd).
      * apply list_elem_of_singleton in Hpath. subst path.
        rewrite lookup_insert_eq. eexists. reflexivity.
    + intros path Hpath. unfold output_paths in Hpath. rewrite lookup_insert_ne.
      * apply Hother. intros Hin. apply Hpath, elem_of_app. left. exact Hin.
      * intros Heq. apply Hpath, elem_of_app. right. apply list_elem_of_singleton.
        symmetry. exact Heq.
Qed.

(** ** More on the loader *)

(** X6. What the loader hands on has a truthy [LAGE] and a truthy [Typ] in
    every feature, and the loader's cleanup changes nothing when it is
    applied to a feature it has already cleaned. *)
Theorem cleanup_truthy_and_idempotent (feature : Feature) :
  truthy (get "LAGE" (properties (cleanup feature))) = true /\
  truthy (get "Typ" (properties (cleanup feature))) = true /\
  cleanup (cleanup feature) = cleanup feature.
Proof.
  assert (HL : truthy (get "LAGE" (properties (cleanup feature))) = true).
  { unfold get. rewrite cleanup_lookup_LAGE. simpl. apply truthy_js_or. reflexivity. }
  assert (HT : truthy (get "Typ" (properties (cleanup feature))) = true)
    by apply cleanup_Typ_truthy.
  split; [exact HL|]. split; [exact HT|].
  destruct (cleanup feature) as [g p] eqn:E. unfold cleanup at 1. cbn [geometry properties] in *.
  f_equal. rewrite (js_or_truthy _ _ HL).
  rewrite (insert_id p "LAGE") by (apply get_truthy, HL).
  rewrite (js_or_truthy _ _ HT). apply insert_id, get_truthy, HT.
Qed.

(** ** More on the set of designations *)

Lemma fold_Set_add_filter (n : nat) (array set : list string) :
  length array <= n ->
  fold_left Set_add array set =
  set ++ new_Set (List.filter (fun y => negb (bool_decide (y ∈ set))) array).
Proof.
  revert array set. induction n as [|n IH]; intros array set Hn.
  - destruct array; [|simpl in Hn; lia]. simpl. rewrite app_nil_r. reflexivity.
  - destruct array as [|a array]; [simpl; rewrite app_nil_r; reflexivity|].
    simpl in Hn. cbn [fold_left List.filter]. unfold Set_add at 2.
    case_bool_decide as Ha; cbn [negb].
    + apply IH. lia.
    + rewrite IH by lia. unfold new_Set at 2. cbn [fold_left]. unfold Set_add at 2.
      rewrite bool_decide_eq_false_2 by apply not_elem_of_nil. cbn [app].
      rewrite (IH (List.filter _ array) [a]).
      2:{ pose proof (filter_length_le (fun y => negb (bool_decide (y ∈ set))) array). lia. }
      rewrite <- app_assoc. cbn [app]. do 3 f_equal.
      clear. induction array as [|b array IH]; [reflexivity|].
      cbn [List.filter].
      destruct (bool_decide (b ∈ set)) eqn:E1; cbn [negb].
      * rewrite <- IH.
        rewrite bool_decide_eq_true_2; [reflexivity|].
        apply bool_decide_eq_true_1 in E1. apply elem_of_app. left. exact E1.
      * cbn [List.filter]. apply bool_decide_eq_false_1 in E1.
        destruct (bool_decide (b ∈ [a])) eqn:E2; cbn [negb].
        { apply bool_decide_eq_true_1 in E2.
          rewrite bool_decide_eq_true_2 by (apply elem_of_app; right; exact E2).
          cbn [negb]. exact IH. }
        { apply bool_decide_eq_false_1 in E2.
          rewrite bool_decide_eq_false_2.
          - cbn [negb]. rewrite IH. reflexivity.
          - intros Hin. apply elem_of_app in Hin as [Hin | Hin]; contradiction. }
Qed.

(** X7. [[...new Set(array)]] keeps the first occurrence of every string, in
    the order of the array: its head comes first and the rest is the set of
    the other strings of the tail. An array without repetition is left as
    it is, so building the set twice changes nothing. *)
Theorem new_Set_first_occurrences (x : string) (array : list string) :
  new_Set [] = [] /\
  new_Set (x :: array) =
    x :: new_Set (List.filter (fun y => negb (bool_decide (y = x))) array) /\
  (NoDup array -> new_Set array = array) /\
  new_Set (new_Set array) = new_Set array.
Proof.
  assert (Hcons : forall a l, new_Set (a :: l) =
            a :: new_Set (List.filter (fun y => negb (bool_decide (y = a))) l)).
  { intros a l. unfold new_Set at 1. cbn [fold_left]. unfold Set_add at 2.
    rewrite bool_decide_eq_false_2 by apply not_elem_of_nil. cbn [app].
    rewrite (fold_Set_add_filter (length l) l [a]) by lia. cbn [app]. do 2 f_equal.
    apply filter_ext. intros y. f_equal. apply bool_decide_ext.
    apply list_elem_of_singleton. }
  assert (Hnodup : forall l, NoDup l -> new_Set l = l).
  { intros l Hl. induction Hl as [|a l Ha Hl IH]; [reflexivity|].
    rewrite Hcons. f_equal. rewrite <- IH at 2. f_equal.
    clear -Ha. induction l as [|b l IH]; [reflexivity|].
    cbn [List.filter]. rewrite bool_decide_eq_false_2.
    - cbn [negb]. f_equal. apply IH. intros Hin. apply Ha, elem_of_cons. right. exact Hin.
    - intros ->. apply Ha, elem_of_cons. left. reflexivity. }
  split; [reflexivity|]. split; [apply Hcons|]. split; [apply Hnodup|].
  apply Hnodup, NoDup_new_Set.
Qed.

(** ** More on the classifier *)

(** X9. When the code ["UNKNOWN"] is configured, a feature read without a
    truthy [Typ] is classified like any other: it is told to the spinner as
    a valid type and gets the designation of the first definition with the
    code ["UNKNOWN"]. *)
Theorem unset_Typ_classified_when_UNKNOWN_configured
    (typesDefinitions : list TypeDefinition) (typeDefinition : TypeDefinition)
    (feature : Feature) (s : state) :
  find (fun t => strict_eq (type t) (VStr "UNKNOWN")) typesDefinitions = Some typeDefinition ->
  truthy (get "Typ" (properties feature)) = false ->
  classifyFeature (map type typesDefinitions) typesDefinitions (cleanup feature) s =
  (Ok (EFeature
         {| geometry := geometry feature;
            properties := <["designation" := VStr (designation typeDefinition)]>
                            (properties (cleanup feature)) |}),
   add_events [Spinner Text (msg_valid_type (VStr "UNKNOWN"))] s).
Proof.
  intros Hfind Hfalsy.
  assert (HTyp : get "Typ" (properties (cleanup feature)) = VStr "UNKNOWN").
  { unfold get at 1. rewrite cleanup_lookup_Typ. simpl. apply js_or_falsy, Hfalsy. }
  rewrite classifyFeature_run. unfold classified, diagnostics. rewrite HTyp, Hfind.
  destruct typesDefinitions as [|t0 l]; [discriminate Hfind|]. reflexivity.
Qed.

(** X10. With definitions, the classification pass over loaded features
    tells the spinner one thing per feature, in the order of the features:
    that the type of the feature is valid, when its code is configured, and
    a warning that the type is unknown otherwise. No feature is dropped:
    the pass returns as many features as it was given, each with the
    geometry it had. *)
Theorem one_report_per_feature (typesDefinitions : list TypeDefinition)
    (array : list Feature) (s : state) :
  typesDefinitions <> [] ->
  exists afters es,
    mapM (classifyFeature (map type typesDefinitions) typesDefinitions)
         (map cleanup array) s
      = (Ok (map EFeature afters), add_events es s) /\
    Forall2 (fun read after => geometry after = geometry read) array afters /\
    Forall2 (fun read e =>
               let v := get "Typ" (properties (cleanup read)) in
               match configured_designation typesDefinitions v with
               | Some _ => e = Spinner Text (msg_valid_type v)
               | None => e = Spinner Warn (msg_unknown_type v)
               end)
            array es.
Proof.
  intros Hne.
  exists (map (fun f => classified typesDefinitions (cleanup f)) array),
         (concat (map (fun f => diagnostics typesDefinitions (cleanup f)) array)).
  split; [rewrite classify_run, !map_map; reflexivity|].
  split.
  - induction array as [|f l IH]; cbn [map]; constructor; [|exact IH].
    unfold classified. destruct (truthy _); [destruct (find _ _)|]; reflexivity.
  - induction array as [|f l IH]; cbn [map concat]; [constructor|].
    unfold diagnostics at 1. destruct typesDefinitions as [|t0 defs]; [contradiction|].
    rewrite cleanup_Typ_truthy.
    destruct (find _ (t0 :: defs)) eqn:E; cbn [app]; constructor; try exact IH;
      unfold configured_designation; cbv zeta; rewrite E; reflexivity.
Qed.

(** ** More on the writer *)

Lemma has_designation_json (d : string) (f : Feature) :
  has_designation d (json_feature f) = has_designation d f.
Proof.
  unfold has_designation, get, json_feature. cbn [properties]. rewrite lookup_omap.
  destruct (properties f !! "designation") as [v|]; simpl; [|reflexivity].
  destruct v; simpl; try reflexivity.
  unfold json_num. destruct (is_nan x || is_infinity x); [reflexivity|].
  destruct (PrimFloat.eqb x 0); reflexivity.
Qed.

Lemma filter_map_swap {A B} (p : B -> bool) (g : A -> B) (l : list A) :
  List.filter p (map g l) = map g (List.filter (fun x => p (g x)) l).
Proof.
  induction l as [|x l IH]; simpl; [reflexivity|].
  destruct (p (g x)); simpl; rewrite IH; reflexivity.
Qed.

(** X11. The copy of the features through JSON in the loop changes neither
    which features the filter selects nor what is written: the file of a
    designation is the file [_saveGeoJson] would write for the collection
    with its own features filtered. *)
Theorem deep_copy_not_observable (outputFileName designation : string)
    (geojson : Collection Feature) (s : state) :
  writable (designation_path outputFileName designation) = true ->
  (forDesignations outputFileName geojson [designation] s).1 = Ok false /\
  disk (forDesignations outputFileName geojson [designation] s).2 =
  disk (_saveGeoJson (outputFileName +:+ "_" +:+ designation)
          {| gtype := gtype geojson;
             features := List.filter (has_designation designation) (features geojson);
             bbox := bbox geojson |} s).2.
Proof.
  intros Hw. rewrite forDesignations_ok.
  2:{ intros d Hd. apply list_elem_of_singleton in Hd. subst d. exact Hw. }
  split; [reflexivity|].
  rewrite _saveGeoJson_ok by exact Hw. cbn [snd disk fold_left].
  unfold write_designation, designation_file, designation_path, json_collection.
  cbn [gtype features bbox]. do 2 f_equal.
  rewrite filter_map_swap, map_map.
  rewrite (filter_ext _ (has_designation designation))
    by (intros f; apply has_designation_json).
  apply map_ext. intros f. apply json_feature_idem.
Qed.

Lemma filter_sublist {A} (p : A -> bool) (l : list A) : List.filter p l `sublist_of` l.
Proof.
  induction l as [|x l IH]; simpl; [constructor|].
  destruct (p x); [apply sublist_skip | apply sublist_cons]; exact IH.
Qed.

(** X12. After a run that succeeds the combined file has as many features
    as the shapefile had, and the features of the file of a designation are
    features of the combined file, in the order they have there. *)
Theorem files_keep_count_and_order (options : Options) (s : state) :
  succeeded options s ->
  exists geojson combined,
    read_options options = inl geojson /\
    disk (shapeToGeojson options s).2 !! (outputFileName options +:+ ".geojson")
      = Some combined /\
    length (features combined) = length (features geojson) /\
    forall d, d ∈ DESIGNATIONS_of options ->
      exists file,
        disk (shapeToGeojson options s).2 !! designation_path (outputFileName options) d
          = Some file /\
        features file `sublist_of` features combined.
Proof.
  intros Hs. destruct (succeeded_disk _ _ Hs) as (geojson & Hread & Hfiles & Hcombined).
  eexists geojson, _. split; [exact Hread|]. split; [exact Hcombined|]. split.
  - unfold json_collection, processed. cbn [features]. rewrite !length_map. reflexivity.
  - intros d Hd. eexists. split; [apply Hfiles, elem_of_new_Set, Hd|].
    cbn [features]. apply filter_sublist.
Qed.

Lemma has_designation_processed (typesDefinitions : list TypeDefinition) (d : string)
    (read : Feature) :
  properties read !! "designation" = None ->
  has_designation d (json_feature (reprojected (classified typesDefinitions (cleanup read)))) =
  bool_decide (configured_designation typesDefinitions
                 (get "Typ" (properties (cleanup read))) = Some d).
Proof.
  intros Hnone. rewrite has_designation_json.
  unfold has_designation, reprojected, classified, configured_designation.
  cbn [properties]. rewrite cleanup_Typ_truthy.
  destruct (find _ typesDefinitions) as [td|]; cbn [fmap option_fmap option_map].
  - cbn [properties]. unfold get. rewrite lookup_insert_eq.
    change (strict_eq (default VUndefined (Some (VStr (designation td)))) (VStr d))
      with (String.eqb (designation td) d).
    destruct (String.eqb (designation td) d) eqn:E.
    + apply String.eqb_eq in E. rewrite bool_decide_eq_true_2; [reflexivity|].
      rewrite E. reflexivity.
    + apply String.eqb_neq in E. rewrite bool_decide_eq_false_2; [reflexivity|].
      intros H. inversion H. contradiction.
  - unfold get. rewrite cleanup_lookup_other by discriminate. rewrite Hnone.
    rewrite bool_decide_eq_false_2 by discriminate. reflexivity.
Qed.

(** X13. For a shapefile without an attribute [designation], after a run
    that succeeds, the file of a designation holds, in the order of the
    shapefile, the processed features of exactly those features read whose
    type code, after the loader's default, has this designation configured
    by the first definition with that code. *)
Theorem designation_file_from_input (options : Options) (s : state) :
  succeeded options s ->
  (forall geojson f,
     read_options options = inl geojson -> f ∈ features geojson ->
     properties f !! "designation" = None) ->
  exists geojson,
    read_options options = inl geojson /\
    forall d, d ∈ DESIGNATIONS_of options ->
      exists file,
        disk (shapeToGeojson options s).2 !! designation_path (outputFileName options) d
          = Some file /\
        features file =
          map (fun f => json_feature
                          (reprojected (classified (definitions options) (cleanup f))))
              (List.filter
                 (fun f => bool_decide
                             (configured_designation (definitions options)
                                (get "Typ" (properties (cleanup f))) = Some d))
                 (features geojson)).
Proof.
  intros Hs Hnone.
  destruct (succeeded_disk _ _ Hs) as (geojson & Hread & Hfiles & _).
  exists geojson. split; [exact Hread|]. intros d Hd.
  eexists. split; [apply Hfiles, elem_of_new_Set, Hd|].
  cbn [features]. unfold json_collection, processed. cbn [features].
  rewrite map_map, filter_map_swap. f_equal.
  apply filter_ext_in. intros f Hf. apply has_designation_processed.
  apply (Hnone geojson f Hread). apply list_elem_of_In, Hf.
Qed.

(** ** The call of the script *)

(** X14. The call the script makes reads the shapefile
    [../data/Radverkehr/Radverkehr_Fuerth] and writes nowhere but to
    [./output/Radverkehr_Fuerth.geojson] and to
    [./output/Radverkehr_Fuerth_<designation>.geojson] for designations of
    [typesDefinitions.json]. When the shapefile cannot be read it returns
    and leaves the disk as it is. *)
Theorem main_reads_and_writes (TYPE_DEFINITIONS : list TypeDefinition) (s : state) :
  (exists es,
     trace (main TYPE_DEFINITIONS s).2 = trace s ++ es /\
     forall path, path ∈ writes es ->
       path = "./output/Radverkehr_Fuerth.geojson" \/
       exists td, td ∈ TYPE_DEFINITIONS /\
         path = "./output/Radverkehr_Fuerth_" +:+ designation td +:+ ".geojson") /\
  (forall cause,
     shapefile_read (path_resolve "../data/Radverkehr/Radverkehr_Fuerth.shp")
                    (path_resolve "../data/Radverkehr/Radverkehr_Fuerth.dbf") = inr cause ->
     (main TYPE_DEFINITIONS s).1 = Ok tt /\
     disk (main TYPE_DEFINITIONS s).2 = disk s).
Proof.
  unfold main.
  set (options := {| inputFileName := "../data/Radverkehr/Radverkehr_Fuerth";
                     outputFileName := "./output/Radverkehr_Fuerth";
                     typesDefinitions := Some TYPE_DEFINITIONS |}).
  assert (Hpath : forall ds path,
            (forall d, d ∈ ds -> d ∈ DESIGNATIONS_of options) ->
            path ∈ map (designation_path "./output/Radverkehr_Fuerth") ds ->
            exists td, td ∈ TYPE_DEFINITIONS /\
              path = "./output/Radverkehr_Fuerth_" +:+ designation td +:+ ".geojson").
  { intros ds path Hds Hin. apply list_elem_of_fmap in Hin as (d & -> & Hd).
    apply Hds, elem_of_new_Set, list_elem_of_fmap in Hd as (td & -> & Htd).
    exists td. split; [exact Htd|]. unfold designation_path.
    rewrite string_app_assoc. reflexivity. }
  split.
  - destruct (shapeToGeojson_cases options s) as
      [cause Hread | geojson written d rest Hread Hsplit Hw Hd
       | geojson Hread Hall Hout | geojson Hread Hall Hout];
      eexists; (split; [reflexivity|]); intros path Hin.
    + apply elem_of_nil in Hin. contradiction.
    + rewrite !writes_app, writes_events_before_writing, writes_designation_events in Hin.
      cbn [writes app] in Hin. rewrite app_nil_r in Hin. right.
      apply (Hpath written); [|exact Hin].
      intros d' Hd'. rewrite Hsplit. apply elem_of_app. left. exact Hd'.
    + rewrite !writes_app, writes_events_before_writing, writes_designation_events in Hin.
      cbn [writes app] in Hin. rewrite app_nil_r in Hin. right.
      apply (Hpath (DESIGNATIONS_of options)); [auto | exact Hin].
    + rewrite !writes_app, writes_events_before_writing, writes_designation_events in Hin.
      cbn [writes app] in Hin. apply elem_of_app in Hin as [Hin | Hin].
      * right. apply (Hpath (DESIGNATIONS_of options)); [auto | exact Hin].
      * left. apply list_elem_of_singleton in Hin. exact Hin.
  - intros cause Hread.
    rewrite (shapeToGeojson_read_failed options cause s Hread). split; reflexivity.
Qed.

(** X15. In every run the spinner hears about the features before the first
    file is written: what a run adds to the trace is a first part without
    any write, which holds everything the classification tells, followed by
    a part of stage events only. *)
Theorem classification_before_writes (options : Options) (s : state) :
  exists before after,
    trace (shapeToGeojson options s).2 = trace s ++ before ++ after /\
    writes before = [] /\
    Forall (fun e => stage_event e = true) after.
Proof.
  destruct (shapeToGeojson_cases options s) as
    [cause Hread | geojson written d rest Hread Hsplit Hw Hd
     | geojson Hread Hall Hout | geojson Hread Hall Hout]; cbn [snd trace add_events].
  - exists [], [Spinner Start msg_shapeToGeojson;
                Spinner Text (msg_reading (inputFileName options));
                Spinner Fail (msg_error_reading (ParseError cause))].
    split; [reflexivity|]. split; [reflexivity|]. repeat constructor.
  - eexists (events_before_writing options geojson), _.
    split; [reflexivity|]. split; [apply writes_events_before_writing|].
    apply Forall_app. split; [apply designations_events_stage | repeat constructor].
  - eexists (events_before_writing options geojson), _.
    split; [reflexivity|]. split; [apply writes_events_before_writing|].
    apply Forall_app. split; [apply designations_events_stage | repeat constructor].
  - eexists (events_before_writing options geojson), _.
    split; [reflexivity|]. split; [apply writes_events_before_writing|].
    apply Forall_app. split; [apply designations_events_stage | repeat constructor].
Qed.

End Script.

(** * Runs on concrete inputs *)

(** The run of the three features: the third is reported by a warning that
    names the code ["UNKNOWN"]. *)
Example sample_run_trace :
  (shapeToGeojson sample_read id everywhere sample_toWGS sample_options empty_state).1 = Ok tt /\
  trace (shapeToGeojson sample_read id everywhere sample_toWGS sample_options empty_state).2 =
  [ Spinner Start msg_shapeToGeojson;
    Spinner Text (msg_reading "in");
    Spinner Text (msg_valid_type (VStr "A"));
    Spinner Text (msg_valid_type (VStr "B"));
    Spinner Warn (msg_unknown_type (VStr "UNKNOWN"));
    Spinner Text (msg_processing_designation "X");
    WriteFile "out_X.geojson";
    Spinner Text (msg_wrote_file "out_X");
    Spinner Text (msg_processing_designation "Y");
    WriteFile "out_Y.geojson";
    Spinner Text (msg_wrote_file "out_Y");
    WriteFile "out.geojson";
    Spinner Succeed (msg_wrote "out") ].
Proof. split; vm_compute; reflexivity. Qed.

Example sample_run_files :
  let files := disk (shapeToGeojson sample_read id everywhere sample_toWGS
                       sample_options empty_state).2 in
  (length ∘ features) <$> files !! "out_X.geojson" = Some 1 /\
  (length ∘ features) <$> files !! "out_Y.geojson" = Some 1 /\
  (length ∘ features) <$> files !! "out.geojson" = Some 3 /\
  bbox <$> files !! "out.geojson" =
    Some [VNum (5480000 / 110000)%float; VNum (4420000 / 400000)%float;
          VNum (5490000 / 110000)%float; VNum (4430000 / 400000)%float].
Proof. repeat split; vm_compute; reflexivity. Qed.

(** C5 on the three features. *)
Lemma getGeoJson_fills_defaults_witness :
  sample_read "in.shp" "in.dbf" = inl sample_collection /\
  exists loaded,
    _getGeoJson sample_read "in.shp" "in.dbf" empty_state = (Ok loaded, empty_state) /\
    gtype loaded = gtype sample_collection /\
    bbox loaded = bbox sample_collection /\
    Forall2 defaults_filled (features sample_collection) (features loaded).
Proof.
  split; [reflexivity|].
  apply (getGeoJson_fills_defaults sample_read "in.shp" "in.dbf" sample_collection empty_state).
  reflexivity.
Defined.

(** The branch of line 90 on a list of codes that has a code without a
    definition. *)
Lemma missing_definition_reported_witness :
  truthy (get "Typ" (properties (sample_feature (VStr "A") (VStr "Hauptstrasse")))) = true /\
  includes [VStr "A"; VStr "B"]
    (get "Typ" (properties (sample_feature (VStr "A") (VStr "Hauptstrasse")))) = true /\
  find (fun t => strict_eq (type t)
                   (get "Typ" (properties (sample_feature (VStr "A") (VStr "Hauptstrasse")))))
       [ {| type := VStr "B"; designation := "Y" |} ] = None /\
  classifyFeature [VStr "A"; VStr "B"] [ {| type := VStr "B"; designation := "Y" |} ]
    (sample_feature (VStr "A") (VStr "Hauptstrasse")) empty_state =
  (Ok ESpinner,
   add_events
     [Spinner Text (msg_valid_type
                      (get "Typ" (properties (sample_feature (VStr "A") (VStr "Hauptstrasse")))));
      Spinner Fail (msg_type_definition_not_found
                      (get "Typ" (properties (sample_feature (VStr "A") (VStr "Hauptstrasse")))))]
     empty_state).
Proof.
  split; [reflexivity|]. split; [reflexivity|]. split; [reflexivity|].
  apply (missing_definition_reported [VStr "A"; VStr "B"]
           [ {| type := VStr "B"; designation := "Y" |} ]
           (sample_feature (VStr "A") (VStr "Hauptstrasse")) empty_state);
    reflexivity.
Defined.

(** With such lists, after a feature whose code is allowed and has no
    definition, the pass goes on and classifies the next feature. *)
Lemma later_feature_still_classified :
  let TYPES := [VStr "A"; VStr "B"] in
  let typesDefinitions := [ {| type := VStr "B"; designation := "Y" |} ] in
  let first := sample_feature (VStr "A") (VStr "Hauptstrasse") in
  let second := sample_feature (VStr "B") (VStr "Nebenstrasse") in
  includes TYPES (get "Typ" (properties first)) = true /\
  find (fun t => strict_eq (type t) (get "Typ" (properties first))) typesDefinitions = None /\
  exists after s',
    mapM (classifyFeature TYPES typesDefinitions) [first; second] empty_state =
      (Ok [ESpinner; EFeature after], s') /\
    properties after !! "designation" = Some (VStr "Y") /\
    trace s' = [ Spinner Text (msg_valid_type (VStr "A"));
                 Spinner Fail (msg_type_definition_not_found (VStr "A"));
                 Spinner Text (msg_valid_type (VStr "B")) ].
Proof.
  split; [reflexivity|]. split; [reflexivity|].
  eexists _, _. split; [reflexivity|]. split; vm_compute; reflexivity.
Qed.

(** C3 on the third of the three features. *)
Lemma unset_Typ_is_warned_as_unknown_witness :
  sample_definitions <> [] /\
  truthy (get "Typ" (properties (sample_feature VNull (VStr "Feldweg")))) = false /\
  includes (map type sample_definitions) (VStr "UNKNOWN") = false /\
  get "Typ" (properties (cleanup (sample_feature VNull (VStr "Feldweg")))) = VStr "UNKNOWN" /\
  classifyFeature (map type sample_definitions) sample_definitions
    (cleanup (sample_feature VNull (VStr "Feldweg"))) empty_state =
  (Ok (EFeature (cleanup (sample_feature VNull (VStr "Feldweg")))),
   add_events [Spinner Warn (msg_unknown_type (VStr "UNKNOWN"))] empty_state).
Proof.
  split; [discriminate|]. split; [reflexivity|]. split; [reflexivity|].
  apply (unset_Typ_is_warned_as_unknown sample_definitions
           (sample_feature VNull (VStr "Feldweg")) empty_state);
    [discriminate | reflexivity | reflexivity].
Defined.

(** C4 fails: a feature whose code is not configured keeps the
    [designation] it was read with. *)
Lemma stale_designation_kept :
  let typesDefinitions := [ {| type := VStr "A"; designation := "X" |} ] in
  typesDefinitions <> [] /\
  (forall td, td ∈ typesDefinitions ->
     strict_eq (type td) (get "Typ" (properties (cleanup stale_feature))) = false) /\
  exists after s',
    classifyFeature (map type typesDefinitions) typesDefinitions
      (cleanup stale_feature) empty_state = (Ok (EFeature after), s') /\
    properties after !! "designation" = Some (VStr "Q") /\
    properties after !! "designation" <> None.
Proof.
  split; [discriminate|]. split.
  - intros td Htd. apply list_elem_of_singleton in Htd. subst td. reflexivity.
  - eexists _, _. split; [reflexivity|]. split; [vm_compute; reflexivity|].
    vm_compute. discriminate.
Qed.

(** C6 fails: the feature read with the designation ["Q"] is in the combined
    file with that designation and in no file of a designation. *)
Lemma stale_designation_in_no_partition :
  succeeded stale_read id everywhere sample_toWGS stale_options empty_state /\
  ~ partition_complete stale_options
      (disk (shapeToGeojson stale_read id everywhere sample_toWGS
               stale_options empty_state).2).
Proof.
  split; [vm_compute; reflexivity|].
  intros (combined & Hcombined & Hunion & _).
  set (f := json_feature (reprojected sample_toWGS
                            (classified (definitions stale_options) (cleanup stale_feature)))).
  destruct (Hunion f) as [_ H].
  destruct H as (d & file & Hd & Hfile & Hf).
  - split.
    + assert (Some combined =
              Some {| gtype := VStr "FeatureCollection"; features := [f];
                      bbox := map json_elem (reprojectBbox sample_toWGS
                                               (bbox stale_collection)) |}) as Heq.
      { rewrite <- Hcombined. vm_compute. reflexivity. }
      inversion Heq. apply elem_of_cons. left. reflexivity.
    + exists (VStr "Q"). vm_compute. reflexivity.
  - apply list_elem_of_singleton in Hd. subst d.
    assert (Some file =
            Some {| gtype := VStr "FeatureCollection"; features := [];
                    bbox := map json_elem (reprojectBbox sample_toWGS
                                             (bbox stale_collection)) |}) as Heq.
    { rewrite <- Hfile. vm_compute. reflexivity. }
    inversion Heq. subst file. apply elem_of_nil in Hf. exact Hf.
Qed.

(** C6 on the three features. *)
Lemma partition_complete_without_read_designation_witness :
  succeeded sample_read id everywhere sample_toWGS sample_options empty_state /\
  (forall geojson f,
     read_options sample_read id sample_options = inl geojson -> f ∈ features geojson ->
     properties f !! "designation" = None) /\
  partition_complete sample_options
    (disk (shapeToGeojson sample_read id everywhere sample_toWGS
             sample_options empty_state).2).
Proof.
  assert (Hs : succeeded sample_read id everywhere sample_toWGS sample_options empty_state)
    by (vm_compute; reflexivity).
  assert (Hnone : forall geojson f,
            read_options sample_read id sample_options = inl geojson -> f ∈ features geojson ->
            properties f !! "designation" = None).
  { intros geojson f Hread Hf. inversion Hread; subst geojson.
    apply elem_of_cons in Hf as [-> | Hf]; [reflexivity|].
    apply elem_of_cons in Hf as [-> | Hf]; [reflexivity|].
    apply list_elem_of_singleton in Hf. subst f. reflexivity. }
  split; [exact Hs|]. split; [exact Hnone|].
  exact (partition_complete_without_read_designation
           sample_read id everywhere sample_toWGS sample_options empty_state Hs Hnone).
Defined.

(** C7 on a run without definitions. *)
Lemma no_definitions_only_combined_file_witness :
  definitions {| inputFileName := "in"; outputFileName := "out"; typesDefinitions := None |} = [] /\
  writes (trace (shapeToGeojson sample_read id everywhere sample_toWGS
                   {| inputFileName := "in"; outputFileName := "out";
                      typesDefinitions := None |} empty_state).2) = ["out.geojson"] /\
  dom (disk (shapeToGeojson sample_read id everywhere sample_toWGS
               {| inputFileName := "in"; outputFileName := "out";
                  typesDefinitions := None |} empty_state).2) = ({["out.geojson"]} : gset string).
Proof.
  split; [reflexivity|].
  destruct (no_definitions_only_combined_file sample_read id everywhere sample_toWGS
              {| inputFileName := "in"; outputFileName := "out"; typesDefinitions := None |}
              empty_state eq_refl) as (_ & _ & H).
  cbn [read_options sample_read everywhere] in H. destruct H as [Hwrites Hdisk].
  split; [exact Hwrites|]. rewrite Hdisk. cbn [disk empty_state].
  rewrite dom_insert_L, dom_empty_L. apply (right_id_L ∅ (∪)).
Defined.

(** C8 on the three features. *)
Lemma successful_run_writes_all_files_witness :
  succeeded sample_read id everywhere sample_toWGS sample_options empty_state /\
  exists geojson combined written,
    read_options sample_read id sample_options = inl geojson /\
    shapeToGeojson sample_read id everywhere sample_toWGS sample_options empty_state =
      (Ok tt, (shapeToGeojson sample_read id everywhere sample_toWGS sample_options
                 empty_state).2) /\
    writes (trace (shapeToGeojson sample_read id everywhere sample_toWGS sample_options
                     empty_state).2) = writes (trace empty_state) ++ written /\
    NoDup written /\
    length written =
      size (list_to_set (map designation (definitions sample_options)) : gset string) + 1 /\
    (forall path, path ∈ written <->
       path = outputFileName sample_options +:+ ".geojson" \/
       exists td, td ∈ definitions sample_options /\
         path = outputFileName sample_options +:+ "_" +:+ designation td +:+ ".geojson") /\
    disk (shapeToGeojson sample_read id everywhere sample_toWGS sample_options
            empty_state).2 !! (outputFileName sample_options +:+ ".geojson")
      = Some combined /\
    gtype combined = default VUndefined (json_prop (gtype geojson)) /\
    bbox combined =
      map json_elem
        [ VNum (latitude (sample_toWGS (index (bbox geojson) 0) (index (bbox geojson) 1)));
          VNum (longitude (sample_toWGS (index (bbox geojson) 0) (index (bbox geojson) 1)));
          VNum (latitude (sample_toWGS (index (bbox geojson) 2) (index (bbox geojson) 3)));
          VNum (longitude (sample_toWGS (index (bbox geojson) 2) (index (bbox geojson) 3))) ] /\
    Forall2 (written_feature sample_toWGS (definitions sample_options))
            (features geojson) (features combined) /\
    (forall td, td ∈ definitions sample_options ->
       exists file,
         disk (shapeToGeojson sample_read id everywhere sample_toWGS sample_options
                 empty_state).2
           !! (outputFileName sample_options +:+ "_" +:+ designation td +:+ ".geojson")
           = Some file /\
         gtype file = gtype combined /\
         bbox file = bbox combined /\
         selected (fun f => properties f !! "designation" = Some (VStr (designation td)))
                  (features combined) (features file)) /\
    (forall path, path ∉ written ->
       disk (shapeToGeojson sample_read id everywhere sample_toWGS sample_options
               empty_state).2 !! path = disk empty_state !! path).
Proof.
  assert (Hs : succeeded sample_read id everywhere sample_toWGS sample_options empty_state)
    by (vm_compute; reflexivity).
  split; [exact Hs|].
  exact (successful_run_writes_all_files sample_read id everywhere sample_toWGS
           sample_options empty_state Hs).
Defined.

(** C9 on the three features, when the file of ["Y"] cannot be written. *)
Lemma designation_write_failure_throws_witness :
  read_options sample_read id sample_options = inl sample_collection /\
  DESIGNATIONS_of sample_options = ["X"] ++ "Y" :: [] /\
  (forall d', d' ∈ ["X"] -> all_but_Y (designation_path "out" d') = true) /\
  all_but_Y (designation_path "out" "Y") = false /\
  (shapeToGeojson sample_read id all_but_Y sample_toWGS sample_options empty_state).1 =
    Throw (ReferenceError "outputFile") /\
  trace (shapeToGeojson sample_read id all_but_Y sample_toWGS sample_options empty_state).2 =
    [ Spinner Start msg_shapeToGeojson;
      Spinner Text (msg_reading "in");
      Spinner Text (msg_valid_type (VStr "A"));
      Spinner Text (msg_valid_type (VStr "B"));
      Spinner Warn (msg_unknown_type (VStr "UNKNOWN"));
      Spinner Text (msg_processing_designation "X");
      WriteFile "out_X.geojson";
      Spinner Text (msg_wrote_file "out_X");
      Spinner Text (msg_processing_designation "Y") ] /\
  dom (disk (shapeToGeojson sample_read id all_but_Y sample_toWGS
               sample_options empty_state).2) = ({["out_X.geojson"]} : gset string).
Proof.
  assert (Hw : forall d', d' ∈ ["X"] -> all_but_Y (designation_path "out" d') = true).
  { intros d' Hd'. apply list_elem_of_singleton in Hd'. subst d'. reflexivity. }
  split; [reflexivity|]. split; [reflexivity|]. split; [exact Hw|]. split; [reflexivity|].
  destruct (designation_write_failure_throws sample_read id all_but_Y sample_toWGS
              sample_options sample_collection ["X"] "Y" [] empty_state
              eq_refl eq_refl Hw eq_refl) as (Hthrow & _ & _ & _).
  split; [exact Hthrow|]. split; [vm_compute; reflexivity|].
  vm_compute. reflexivity.
Defined.

(** X1 on a shapefile that cannot be read. *)
Lemma read_failure_reported_witness :
  read_options failing_read id sample_options = inr "ENOENT" /\
  (shapeToGeojson failing_read id everywhere sample_toWGS sample_options empty_state).1
    = Ok tt /\
  trace (shapeToGeojson failing_read id everywhere sample_toWGS sample_options empty_state).2 =
    [Spinner Start msg_shapeToGeojson;
     Spinner Text (msg_reading "in");
     Spinner Fail (msg_error_reading (ParseError "ENOENT"))] /\
  disk (shapeToGeojson failing_read id everywhere sample_toWGS sample_options empty_state).2
    = ∅.
Proof.
  split; [reflexivity|].
  exact (read_failure_reported failing_read id everywhere sample_toWGS
           sample_options "ENOENT" empty_state eq_refl).
Defined.

(** X2 on the three features, when the combined file cannot be written. *)
Lemma combined_write_failure_reported_witness :
  combined_write_failed sample_read id all_but_combined sample_toWGS
    sample_options empty_state /\
  (shapeToGeojson sample_read id all_but_combined sample_toWGS sample_options empty_state).1
    = Ok tt /\
  all_but_combined ("out" +:+ ".geojson") = false /\
  dom (disk (shapeToGeojson sample_read id all_but_combined sample_toWGS
               sample_options empty_state).2)
    = ({["out_X.geojson"; "out_Y.geojson"]} : gset string).
Proof.
  assert (Hf : combined_write_failed sample_read id all_but_combined sample_toWGS
                 sample_options empty_state) by (vm_compute; reflexivity).
  split; [exact Hf|].
  destruct (combined_write_failure_reported sample_read id all_but_combined sample_toWGS
              sample_options empty_state Hf) as (Hok & _ & Hout & _).
  split; [exact Hok|]. split; [exact Hout|]. vm_compute. reflexivity.
Defined.

(** X9 on a feature without a type code. *)
Lemma unset_Typ_classified_when_UNKNOWN_configured_witness :
  find (fun t => strict_eq (type t) (VStr "UNKNOWN")) UNKNOWN_definitions
    = Some {| type := VStr "UNKNOWN"; designation := "Rest" |} /\
  truthy (get "Typ" (properties (sample_feature VNull (VStr "Feldweg")))) = false /\
  classifyFeature (map type UNKNOWN_definitions) UNKNOWN_definitions
    (cleanup (sample_feature VNull (VStr "Feldweg"))) empty_state =
  (Ok (EFeature
         {| geometry := geometry (sample_feature VNull (VStr "Feldweg"));
            properties := <["designation" := VStr "Rest"]>
                            (properties (cleanup (sample_feature VNull (VStr "Feldweg")))) |}),
   add_events [Spinner Text (msg_valid_type (VStr "UNKNOWN"))] empty_state).
Proof.
  split; [reflexivity|]. split; [reflexivity|].
  exact (unset_Typ_classified_when_UNKNOWN_configured UNKNOWN_definitions
           {| type := VStr "UNKNOWN"; designation := "Rest" |}
           (sample_feature VNull (VStr "Feldweg")) empty_state eq_refl eq_refl).
Defined.

(** X10 on the three features. *)
Lemma one_report_per_feature_witness :
  sample_definitions <> [] /\
  exists afters es,
    mapM (classifyFeature (map type sample_definitions) sample_definitions)
         (map cleanup (features sample_collection)) empty_state
      = (Ok (map EFeature afters), add_events es empty_state) /\
    Forall2 (fun read after => geometry after = geometry read)
            (features sample_collection) afters /\
    Forall2 (fun read e =>
               let v := get "Typ" (properties (cleanup read)) in
               match configured_designation sample_definitions v with
               | Some _ => e = Spinner Text (msg_valid_type v)
               | None => e = Spinner Warn (msg_unknown_type v)
               end)
            (features sample_collection) es.
Proof.
  split; [discriminate|].
  apply (one_report_per_feature sample_definitions (features sample_collection) empty_state).
  discriminate.
Defined.

(** X11 on the three features and the designation ["X"]. *)
Lemma deep_copy_not_observable_witness :
  everywhere (designation_path "out" "X") = true /\
  (forDesignations everywhere "out" sample_collection ["X"] empty_state).1 = Ok false /\
  disk (forDesignations everywhere "out" sample_collection ["X"] empty_state).2 =
  disk (_saveGeoJson everywhere ("out" +:+ "_" +:+ "X")
          {| gtype := gtype sample_collection;
             features := List.filter (has_designation "X") (features sample_collection);
             bbox := bbox sample_collection |} empty_state).2.
Proof.
  split; [reflexivity|].
  exact (deep_copy_not_observable everywhere "out" "X" sample_collection empty_state eq_refl).
Defined.

(** X12 on the three features. *)
Lemma files_keep_count_and_order_witness :
  succeeded sample_read id everywhere sample_toWGS sample_options empty_state /\
  exists geojson combined,
    read_options sample_read id sample_options = inl geojson /\
    disk (shapeToGeojson sample_read id everywhere sample_toWGS sample_options
            empty_state).2 !! ("out" +:+ ".geojson") = Some combined /\
    length (features combined) = length (features geojson) /\
    forall d, d ∈ DESIGNATIONS_of sample_options ->
      exists file,
        disk (shapeToGeojson sample_read id everywhere sample_toWGS sample_options
                empty_state).2 !! designation_path "out" d = Some file /\
        features file `sublist_of` features combined.
Proof.
  assert (Hs : succeeded sample_read id everywhere sample_toWGS sample_options empty_state)
    by (vm_compute; reflexivity).
  split; [exact Hs|].
  exact (files_keep_count_and_order sample_read id everywhere sample_toWGS
           sample_options empty_state Hs).
Defined.

(** X13 on the three features. *)
Lemma designation_file_from_input_witness :
  succeeded sample_read id everywhere sample_toWGS sample_options empty_state /\
  (forall geojson f,
     read_options sample_read id sample_options = inl geojson -> f ∈ features geojson ->
     properties f !! "designation" = None) /\
  exists geojson,
    read_options sample_read id sample_options = inl geojson /\
    forall d, d ∈ DESIGNATIONS_of sample_options ->
      exists file,
        disk (shapeToGeojson sample_read id everywhere sample_toWGS sample_options
                empty_state).2 !! designation_path "out" d = Some file /\
        features file =
          map (fun f => json_feature
                          (reprojected sample_toWGS
                             (classified (definitions sample_options) (cleanup f))))
              (List.filter
                 (fun f => bool_decide
                             (configured_designation (definitions sample_options)
                                (get "Typ" (properties (cleanup f))) = Some d))
                 (features geojson)).
Proof.
  assert (Hs : succeeded sample_read id everywhere sample_toWGS sample_options empty_state)
    by (vm_compute; reflexivity).
  assert (Hnone : forall geojson f,
            read_options sample_read id sample_options = inl geojson -> f ∈ features geojson ->
            properties f !! "designation" = None).
  { intros geojson f Hread Hf. inversion Hread; subst geojson.
    apply elem_of_cons in Hf as [-> | Hf]; [reflexivity|].
    apply elem_of_cons in Hf as [-> | Hf]; [reflexivity|].
    apply list_elem_of_singleton in Hf. subst f. reflexivity. }
  split; [exact Hs|]. split; [exact Hnone|].
  exact (designation_file_from_input sample_read id everywhere sample_toWGS
           sample_options empty_state Hs Hnone).
Defined.

(** X3 on the three features. *)
Lemma succeeded_only_when_all_written_witness :
  succeeded sample_read id everywhere sample_toWGS sample_options empty_state /\
  (shapeToGeojson sample_read id everywhere sample_toWGS sample_options empty_state).1
    = Ok tt /\
  (forall td, td ∈ definitions sample_options ->
     everywhere (outputFileName sample_options +:+ "_" +:+ designation td +:+ ".geojson")
       = true) /\
  exists es,
    trace (shapeToGeojson sample_read id everywhere sample_toWGS sample_options
             empty_state).2 =
      trace empty_state ++ es ++ [Spinner Succeed (msg_wrote (outputFileName sample_options))] /\
    (forall m, Spinner Succeed m ∉ es) /\
    (forall m, Spinner Fail m ∉ es).
Proof.
  assert (Hs : succeeded sample_read id everywhere sample_toWGS sample_options empty_state)
    by (vm_compute; reflexivity).
  split; [exact Hs|].
  destruct (succeeded_only_when_all_written sample_read id everywhere sample_toWGS
              sample_options empty_state Hs) as (Hok & _ & _ & Hw & Htrace).
  split; [exact Hok|]. split; [exact Hw | exact Htrace].
Defined.

(** X4 on the three features, when the file of ["Y"] cannot be written. *)
Lemma io_errors_never_escape_witness :
  (shapeToGeojson sample_read id all_but_Y sample_toWGS sample_options empty_state).1
    = Throw (ReferenceError "outputFile") /\
  (forall cause, ReferenceError "outputFile" <> ParseError cause) /\
  (forall path, ReferenceError "outputFile" <> WriteError path).
Proof.
  assert (Hthrow : (shapeToGeojson sample_read id all_but_Y sample_toWGS
                      sample_options empty_state).1 = Throw (ReferenceError "outputFile"))
    by (vm_compute; reflexivity).
  split; [exact Hthrow|].
  exact (io_errors_never_escape sample_read id all_but_Y sample_toWGS sample_options
           empty_state (ReferenceError "outputFile") Hthrow).
Defined.
